(** * Certificate validation service: store, registry client, dispatcher, gateway

    A shallow embedding of the TypeScript sources

      - [services/certificates.service.ts]  ([verifyCertificate], [CertificatesService])
      - [services/communication.service.ts] ([CommunicationService.handleRequest])
      - [server.ts]                         (the [http.createServer] handler)

    followed by the properties of the specification that concern them.

    Conventions of the embedding.
      - JavaScript values that come out of [JSON.parse] are values of [JSON].
        The code looks at a number only through [String] and through its
        truthiness, so a number ([Number]) is identified by the text that
        [String] renders it as.
      - Strings are Rocq strings; a character stands for one UTF-16 code unit
        (the identifiers and dates handled here are ASCII).
      - An [async] function is a computation in the monad [M]: it threads the
        process state (the in-memory store and the log of outbound requests)
        and either returns a value or rejects with an exception.
      - Everything the process does not control (the registry's replies, the
        clock, the random generator) is read from a [World].
      - The store is the in-memory one ([USE_MOCK_STORAGE], which is what
        [PROJECT_ID] selects unless it names the production project); the
        Firestore and Cloud Storage branches call services whose code is not
        part of the repository.  [console] output is not modelled. *)

From Stdlib Require Import ZArith String Ascii List Bool Lia.
From stdpp Require Import base option list gmap strings pretty.

Open Scope string_scope.
Open Scope Z_scope.

(** ** JavaScript values and primitives *)

(** A JavaScript number, identified by the text that [String] renders it as:
    ["42"], ["1.5"], ["1e+21"], ["Infinity"], ["NaN"].  Both zeros are
    rendered ["0"] and are not told apart. *)
Record Number : Type := mkNumber { Number_toString : string }.

(** A safe integer (at most 2^53 - 1 in magnitude), which [String] renders
    with all its decimal digits. *)
Definition int (n : Z) : Number := mkNumber (pretty n).

Coercion int : Z >-> Number.

(** [!n]: zero and [NaN] are the falsy numbers. *)
Definition falsy_number (n : Number) : bool :=
  String.eqb (Number_toString n) "0" || String.eqb (Number_toString n) "NaN".

#[warnings="-register-all"]
Inductive JSON : Type :=
| JNull
| JBool (b : bool)
| JNum (n : Number)
| JStr (s : string)
| JArr (items : list JSON)
| JObj (fields : list (string * JSON)).

Definition quote : string := String (ascii_of_nat 34) EmptyString.

(** Own property lookup on a parsed object; [None] is [undefined]. *)
Fixpoint own_prop (key : string) (fields : list (string * JSON)) : option JSON :=
  match fields with
  | [] => None
  | (k, v) :: rest => if String.eqb k key then Some v else own_prop key rest
  end.

Definition has_own (key : string) (fields : list (string * JSON)) : bool :=
  match own_prop key fields with Some _ => true | None => false end.

(** [v.key] for a key that no prototype defines (here: [data]). *)
Definition js_prop (key : string) (v : JSON) : option JSON :=
  match v with
  | JObj fields => own_prop key fields
  | _ => None
  end.

(** [!!v] *)
Definition js_truthy (v : JSON) : bool :=
  match v with
  | JNull => false
  | JBool b => b
  | JNum n => negb (falsy_number n)
  | JStr s => negb (String.eqb s EmptyString)
  | JArr _ | JObj _ => true
  end.

(** [x ?? null] where [x] is an array access ([None] when out of range). *)
Definition nullish (x : option JSON) : JSON :=
  match x with
  | Some v => v
  | None => JNull
  end.

(** [v !== null] *)
Definition not_null (v : JSON) : bool :=
  match v with
  | JNull => false
  | _ => true
  end.

(** [String(v)].  [None] is the [TypeError] of [OrdinaryToPrimitive]: a parsed
    object whose own [toString] property shadows [Object.prototype.toString]
    has no callable conversion left ([Object.prototype.valueOf] returns the
    object itself).  Arrays convert through [Array.prototype.join], which
    renders [null] elements as the empty string. *)
Fixpoint js_String (v : JSON) : option string :=
  match v with
  | JNull => Some "null"
  | JBool b => Some (if b then "true" else "false")
  | JNum n => Some (Number_toString n)
  | JStr s => Some s
  | JArr items =>
      let fix join (l : list JSON) : option (list string) :=
        match l with
        | [] => Some []
        | x :: rest =>
            match (match x with JNull => Some EmptyString | _ => js_String x end) with
            | None => None
            | Some s =>
                match join rest with
                | None => None
                | Some ss => Some (s :: ss)
                end
            end
        end in
      match join items with
      | None => None
      | Some ss => Some (String.concat "," ss)
      end
  | JObj fields =>
      if has_own "toString" fields then None else Some "[object Object]"
  end.

(** [String(row[i])]: an index past the end reads [undefined]. *)
Definition js_String_at (row : list JSON) (i : nat) : option string :=
  match row !! i with
  | Some v => js_String v
  | None => Some "undefined"
  end.

(** The result of [ToPrimitive] with hint number. *)
Inductive Prim : Type :=
| PNull
| PBool (b : bool)
| PNum (n : Number)
| PStr (s : string).

Definition ToPrimitive (v : JSON) : option Prim :=
  match v with
  | JNull => Some PNull
  | JBool b => Some (PBool b)
  | JNum n => Some (PNum n)
  | JStr s => Some (PStr s)
  | JArr _ | JObj _ => PStr <$> js_String v
  end.

(** [v >= date] and [v <= date] where [date] is an ISO calendar date
    ([YYYY-MM-DD]).  Two strings compare by code units; in every other case
    the date is converted to a number, which gives [NaN], and the comparison
    is false. *)
Definition js_ge_date (v : JSON) (date : string) : option bool :=
  match ToPrimitive v with
  | None => None
  | Some (PStr s) => Some (negb (String.ltb s date))
  | Some _ => Some false
  end.

Definition js_le_date (v : JSON) (date : string) : option bool :=
  match ToPrimitive v with
  | None => None
  | Some (PStr s) => Some (negb (String.ltb date s))
  | Some _ => Some false
  end.

(** [a && b] where evaluating an operand may throw ([None]). *)
Definition and_then (a : option bool) (b : option bool) : option bool :=
  match a with
  | Some true => b
  | Some false => Some false
  | None => None
  end.

Infix "&&&" := and_then (at level 40, left associativity).

(** [s.indexOf(pat, from)] for a non-empty pattern: [-1] when absent. *)
Definition js_indexOf (s pat : string) (from : Z) : Z :=
  match index (Z.to_nat (Z.max 0 from)) pat s with
  | Some k => Z.of_nat k
  | None => -1
  end.

Definition clamp (len : nat) (i : Z) : nat :=
  Nat.min (Z.to_nat (Z.max 0 i)) len.

(** [s.substring(a, b)]: both ends are clamped to [0..length] and swapped
    when out of order. *)
Definition js_substring (s : string) (a b : Z) : string :=
  let a' := clamp (String.length s) a in
  let b' := clamp (String.length s) b in
  substring (Nat.min a' b') (Nat.max a' b' - Nat.min a' b') s.

(** [s.substring(a)] *)
Definition js_substring_from (s : string) (a : Z) : string :=
  js_substring s a (Z.of_nat (String.length s)).

(** [s.startsWith(pre)] *)
Definition js_startsWith (s pre : string) : bool := String.prefix pre s.

(** [s.split(sep)] for a one-character separator. *)
Fixpoint js_split (sep : ascii) (s : string) : list string :=
  match s with
  | EmptyString => [EmptyString]
  | String c rest =>
      if Ascii.eqb c sep then EmptyString :: js_split sep rest
      else
        match js_split sep rest with
        | [] => [String c EmptyString]
        | seg :: segs => String c seg :: segs
        end
  end.

(** ** Calendar dates

    [new Date().toISOString().split("T")[0]] for a year of the current era. *)

Record Date : Type := mkDate { year : N; month : N; day : N }.

Definition digit (n : N) : ascii := ascii_of_N (48 + n mod 10).

Definition pad2 (n : N) : string :=
  String (digit (n / 10)) (String (digit n) EmptyString).

Definition pad4 (n : N) : string :=
  String (digit (n / 1000)) (String (digit (n / 100)) (pad2 n)).

Definition toISODate (d : Date) : string :=
  pad4 (year d) ++ "-" ++ pad2 (month d) ++ "-" ++ pad2 (day d).

(** Chronological order on dates. *)
Definition date_le (a b : Date) : Prop :=
  (year a < year b)%N \/
  (year a = year b /\ (month a < month b)%N) \/
  (year a = year b /\ month a = month b /\ (day a <= day b)%N).

(** The dates [toISODate] renders faithfully. *)
Definition wf_date (d : Date) : Prop :=
  (year d <= 9999)%N /\ (month d <= 99)%N /\ (day d <= 99)%N.

(** ** Data model *)

(** The metadata object [certMeta] that [uploadCertificate] stores. *)
Record Certificate : Type := mkCertificate {
  id : string;
  bucketPath : string;
  uploadedAt : string;
  verified : bool;
  validUntil : JSON
}.

(** A value of [mockStorage]: [{ productId, certificates }]. *)
Record Product : Type := mkProduct {
  productId : string;
  certificates : list Certificate
}.

(** An identifier argument: declared [string | number]; the message channel
    also delivers [null]. *)
Inductive Ident : Type :=
| IdStr (s : string)
| IdNum (n : Number)
| IdNull.

(** [String(x)] on an identifier. *)
Definition String_of (x : Ident) : string :=
  match x with
  | IdStr s => s
  | IdNum n => Number_toString n
  | IdNull => "null"
  end.

(** [!x] on an identifier. *)
Definition falsy_ident (x : Ident) : bool :=
  match x with
  | IdStr s => String.eqb s EmptyString
  | IdNum n => falsy_number n
  | IdNull => true
  end.

(** The [file] argument: [None] is [null]; [Some src] is a payload (the
    base64 text, or the [Buffer] decoded from it).  The in-memory store never
    reads it. *)
Definition File : Type := option string.

(** ** The process state and its environment *)

(** Outbound requests to the registry: the fetch of the certificate-database
    page, and the query built from the parameter template with [searchTerm]
    and [wdtNonce] spliced in. *)
Inductive NetCall : Type :=
| GetPage
| PostQuery (searchTerm wdtNonce : string).

Record State : Type := mkState {
  mockStorage : gmap string Product;
  netLog : list NetCall
}.

Definition initial : State := mkState ∅ [].

(** The text handed to [new URLSearchParams] for the query (line 48): a fixed
    list of parameters into which the search term and the nonce are spliced
    as they are, without escaping. *)
Definition params_head : string :=
  "draw=4&columns[0][data]=0&columns[0][name]=cert_ikon&columns[0][search" ++
  "able]=true&columns[0][orderable]=true&columns[0][search][value]=&colum" ++
  "ns[0][search][regex]=false&columns[1][data]=1&columns[1][name]=cert_nu" ++
  "mber&columns[1][searchable]=true&columns[1][orderable]=true&columns[1]" ++
  "[search][value]=&columns[1][search][regex]=false&columns[2][data]=2&co" ++
  "lumns[2][name]=cert_owner&columns[2][searchable]=true&columns[2][order" ++
  "able]=true&columns[2][search][value]=&columns[2][search][regex]=false&" ++
  "columns[3][data]=3&columns[3][name]=scope&columns[3][searchable]=true&" ++
  "columns[3][orderable]=true&columns[3][search][value]=&columns[3][searc" ++
  "h][regex]=false&columns[4][data]=4&columns[4][name]=cert_in_put&column" ++
  "s[4][searchable]=true&columns[4][orderable]=true&columns[4][search][va" ++
  "lue]=&columns[4][search][regex]=false&columns[5][data]=5&columns[5][na" ++
  "me]=cert_add_on&columns[5][searchable]=true&columns[5][orderable]=true" ++
  "&columns[5][search][value]=&columns[5][search][regex]=false&columns[6]" ++
  "[data]=6&columns[6][name]=cert_products&columns[6][searchable]=true&co" ++
  "lumns[6][orderable]=true&columns[6][search][value]=&columns[6][search]" ++
  "[regex]=false&columns[7][data]=7&columns[7][name]=cert_valid_from&colu" ++
  "mns[7][searchable]=true&columns[7][orderable]=true&columns[7][search][" ++
  "value]=&columns[7][search][regex]=false&columns[8][data]=8&columns[8][" ++
  "name]=cert_valid_until&columns[8][searchable]=true&columns[8][orderabl" ++
  "e]=true&columns[8][search][value]=&columns[8][search][regex]=false&col" ++
  "umns[9][data]=9&columns[9][name]=cert_suspended_date&columns[9][search" ++
  "able]=true&columns[9][orderable]=true&columns[9][search][value]=&colum" ++
  "ns[9][search][regex]=false&columns[10][data]=10&columns[10][name]=cert" ++
  "_issuer&columns[10][searchable]=true&columns[10][orderable]=true&colum" ++
  "ns[10][search][value]=&columns[10][search][regex]=false&columns[11][da" ++
  "ta]=11&columns[11][name]=cert_map&columns[11][searchable]=true&columns" ++
  "[11][orderable]=true&columns[11][search][value]=&columns[11][search][r" ++
  "egex]=false&columns[12][data]=12&columns[12][name]=cert_file&columns[1" ++
  "2][searchable]=true&columns[12][orderable]=true&columns[12][search][va" ++
  "lue]=&columns[12][search][regex]=false&columns[13][data]=13&columns[13" ++
  "][name]=cert_audit&columns[13][searchable]=true&columns[13][orderable]" ++
  "=true&columns[13][search][value]=&columns[13][search][regex]=false&col" ++
  "umns[14][data]=14&columns[14][name]=cert_status&columns[14][searchable" ++
  "]=true&columns[14][orderable]=true&columns[14][search][value]=&columns" ++
  "[14][search][regex]=false&order[0][column]=8&order[0][dir]=desc&start=" ++
  "0&length=10&search[value]=".

Definition params_text (searchTerm wdtNonce : string) : string :=
  params_head ++ searchTerm ++ "&search[regex]=false&wdtNonce=" ++ wdtNonce
    ++ "&sRangeSeparator=|".

(** The parameter text of a request: none for the page fetch. *)
Definition parameters (c : NetCall) : option string :=
  match c with
  | GetPage => None
  | PostQuery searchTerm wdtNonce => Some (params_text searchTerm wdtNonce)
  end.

(** What the registry answers to the tabular query. *)
Inductive Reply : Type :=
| NetworkFailure
| NotJson
| Json (v : JSON).

Record World : Type := mkWorld {
  (** body of the certificate-database page; [None]: the request fails *)
  page : option string;
  (** reply to the query for [search[value]] with [wdtNonce] *)
  table : string -> string -> Reply;
  (** the current date *)
  today : Date;
  (** [Date.now()] *)
  dateNow : Z;
  (** [Math.random().toString(36).slice(2, 8)] *)
  randomTag : string;
  (** [new Date().toISOString()] *)
  isoNow : string
}.

(** ** Computations *)

Inductive Exn : Type :=
| NetworkError
| SyntaxError
| TypeError.

Inductive Outcome (A : Type) : Type :=
| Returned (a : A)
| Thrown (e : Exn).

Arguments Returned {A} a.
Arguments Thrown {A} e.

Definition M (A : Type) : Type := State -> Outcome A * State.

Definition ret {A} (a : A) : M A := fun st => (Returned a, st).

Definition bind {A B} (m : M A) (k : A -> M B) : M B :=
  fun st =>
    match m st with
    | (Returned a, st') => k a st'
    | (Thrown e, st') => (Thrown e, st')
    end.

Definition throw {A} (e : Exn) : M A := fun st => (Thrown e, st).

(** [try { body } catch (err) { handler }] *)
Definition try_catch {A} (body : M A) (handler : Exn -> M A) : M A :=
  fun st =>
    match body st with
    | (Returned a, st') => (Returned a, st')
    | (Thrown e, st') => handler e st'
    end.

Definition storage : M (gmap string Product) :=
  fun st => (Returned (mockStorage st), st).

Definition set_storage (m : gmap string Product) : M unit :=
  fun st => (Returned tt, mkState m (netLog st)).

Definition send (c : NetCall) : M unit :=
  fun st => (Returned tt, mkState (mockStorage st) (netLog st ++ [c])).

(** Evaluating an expression that may raise a [TypeError]. *)
Definition eval {A} (x : option A) : M A :=
  match x with
  | Some a => ret a
  | None => throw TypeError
  end.

Notation "'let!' x ':=' m 'in' k" := (bind m (fun x => k))
  (at level 10, x pattern, m at level 100, k at level 200).
Notation "'do!' m 'in' k" := (bind m (fun _ => k))
  (at level 10, m at level 100, k at level 200).

Definition result {A} (r : Outcome A * State) : Outcome A := fst r.
Definition final {A} (r : Outcome A * State) : State := snd r.

(** ** External registry client *)

(** [await fetch(requestPage).then(blob).then(text)] *)
Definition fetch_page (w : World) : M string :=
  do! send GetPage in
  match page w with
  | Some text => ret text
  | None => throw NetworkError
  end.

(** [await fetch(request).then(blob).then(text).then(JSON.parse)] *)
Definition fetch_table (w : World) (searchTerm wdtNonce : string) : M JSON :=
  do! send (PostQuery searchTerm wdtNonce) in
  match table w searchTerm wdtNonce with
  | NetworkFailure => throw NetworkError
  | NotJson => throw SyntaxError
  | Json v => ret v
  end.

(** The nonce scraped from the page (lines 41 to 45). *)
Definition wdtNonce_of (text : string) : string :=
  let responsePage :=
    js_substring_from text (js_indexOf text "wdtNonceFrontendEdit_2" 0) in
  let i := js_indexOf responsePage "value" 0 + 7 in
  js_substring responsePage i (js_indexOf responsePage quote (i + 7)).

(** The expression assigned to [validCertificate]. *)
Definition validCertificate (today : string) (data row : list JSON)
    (productId : string) : option bool :=
  let validUntil := nullish (row !! 8%nat) in
  let validAfter := nullish (row !! 7%nat) in
  Some (not_null validUntil) &&&
  Some (not_null validAfter) &&&
  js_ge_date validUntil today &&&
  js_le_date validAfter today &&&
  Some (length data =? 1)%nat &&&
  (s ← js_String_at row 1; Some (String.eqb s productId)).

Definition verifyCertificate (w : World) (productId : string)
    : M (JSON * bool) :=
  let! text := fetch_page w in
  let wdtNonce := wdtNonce_of text in
  let! responseJson :=
    try_catch (let! v := fetch_table w productId wdtNonce in ret (Some v))
              (fun _ => ret None) in
  match responseJson with
  | None => ret (JNull, false)
  | Some responseJson =>
      if negb (js_truthy responseJson) then ret (JNull, false) else
      match js_prop "data" responseJson with
      | Some (JArr data) =>
          match data with
          | [] => ret (JNull, false)
          | JArr row :: _ =>
              let validUntil := nullish (row !! 8%nat) in
              let! valid :=
                eval (validCertificate (toISODate (today w)) data row productId) in
              ret (validUntil, valid)
          | _ :: _ => ret (JNull, false)
          end
      | _ => ret (JNull, false)
      end
  end.

(** ** Certificate store ([CertificatesService]) *)

Definition with_certificates (p : Product) (cs : list Certificate) : Product :=
  mkProduct (productId p) cs.

(** [String(c.id) === String(certId)] *)
Definition same_id (certId : Ident) (c : Certificate) : bool :=
  String.eqb (id c) (String_of certId).

Definition uploadCertificate (w : World) (productId : Ident) (file : File)
    (certificateId : Ident) : M bool :=
  let searchTerm := String_of certificateId in
  let! (validUntil, validCertificate) := verifyCertificate w searchTerm in
  if negb validCertificate then ret false else
  let productIdStr := String_of productId in
  let certId := pretty (dateNow w) ++ "-" ++ randomTag w in
  let objectName := "certificates/" ++ productIdStr ++ "_" ++ certId ++ ".pdf" in
  try_catch
    (let certMeta :=
       {| id := certId;
          bucketPath := "mock://certificates/" ++ objectName;
          uploadedAt := isoNow w;
          verified := true;
          validUntil := validUntil |} in
     let! store := storage in
     let existing := default (mkProduct productIdStr []) (store !! productIdStr) in
     let existing := with_certificates existing (certificates existing ++ [certMeta]) in
     do! set_storage (<[productIdStr := existing]> store) in
     ret true)
    (fun _ => ret false).

(** [Array.from(mockStorage.values())] lists the products in insertion order;
    the finite map lists them in an order of its own. *)
Definition listCertificates : M (list string) :=
  try_catch
    (let! store := storage in
     let products := (map_to_list store).*2 in
     ret (productId <$> products))
    (fun _ => ret []).

Definition listProductCertificates (productId : Ident) : M (list Certificate) :=
  try_catch
    (let productIdStr := String_of productId in
     let! store := storage in
     let existing := default (mkProduct productIdStr []) (store !! productIdStr) in
     ret (certificates existing))
    (fun _ => ret []).

(** Deletes every certificate of a product. *)
Definition deleteCertificate (productId : Ident) : M bool :=
  let productIdStr := String_of productId in
  try_catch
    (let! store := storage in
     do! set_storage (delete productIdStr store) in
     ret true)
    (fun _ => ret false).

(** Deletes a single certificate of a product, by certificate id. *)
Definition deleteProductCertificate (productId : Ident) (certId : Ident)
    : M bool :=
  let productIdStr := String_of productId in
  try_catch
    (let! store := storage in
     match store !! productIdStr with
     | None => ret false
     | Some existing =>
         let certificates := certificates existing in
         match List.find (same_id certId) certificates with
         | None => ret false
         | Some cert =>
             let updated :=
               List.filter (fun c => negb (same_id certId c)) certificates in
             do! (if (0 <? length updated)%nat
                  then set_storage
                         (<[productIdStr := with_certificates existing updated]> store)
                  else set_storage (delete productIdStr store)) in
             ret true
         end
     end)
    (fun _ => ret false).

(** ** Request dispatcher ([CommunicationService]) *)

Definition ident_json (x : Ident) : JSON :=
  match x with
  | IdStr s => JStr s
  | IdNum n => JNum n
  | IdNull => JNull
  end.

Definition cert_json (c : Certificate) : JSON :=
  JObj [("id", JStr (id c));
        ("bucketPath", JStr (bucketPath c));
        ("uploadedAt", JStr (uploadedAt c));
        ("verified", JBool (verified c));
        ("validUntil", validUntil c)].

Definition length_json {A} (l : list A) : JSON := JNum (Z.of_nat (length l)).

(** The arguments are the ones after the defaults ([productId = ""],
    [file = null], [certificateId = ""]) have replaced [undefined].  [None] is
    the [undefined] that falls out of the [switch]. *)
Definition handleRequest (w : World) (requestType : string) (productId : Ident)
    (file : File) (certificateId : Ident) : M (option JSON) :=
  if String.eqb requestType "upload" then
    let! status := uploadCertificate w productId file certificateId in
    ret (Some (JObj [("operationType", JStr "uploadResponse");
                     ("status", JBool status)]))
  else if String.eqb requestType "delete" then
    let! deleteStatus := deleteProductCertificate productId certificateId in
    ret (Some (JObj [("operationType", JStr "deleteResponse");
                     ("status", JBool deleteStatus)]))
  else if String.eqb requestType "deleteProductCertificate" then
    let! deleteStatus := deleteProductCertificate productId certificateId in
    ret (Some (JObj [("operationType", JStr "deleteProductCertificateResponse");
                     ("productId", ident_json productId);
                     ("certificateId", ident_json certificateId);
                     ("status", JBool deleteStatus)]))
  else if String.eqb requestType "list" then
    let! productIds := listCertificates in
    ret (Some (JObj [("operationType", JStr "listResponse");
                     ("productIds", JArr (JStr <$> productIds));
                     ("total", length_json productIds)]))
  else if String.eqb requestType "listProductCertificates" then
    let! certificates := listProductCertificates productId in
    ret (Some (JObj [("operationType", JStr "listProductCertificatesResponse");
                     ("productId", ident_json productId);
                     ("certificates", JArr (cert_json <$> certificates));
                     ("total", length_json certificates)]))
  else ret None.

(** ** Synchronous gateway (the [http.createServer] handler) *)

Inductive Payload : Type :=
| Text (s : string)
| Body (v : JSON).

Record Response : Type := mkResponse {
  status : Z;
  contentType : string;
  payload : Payload
}.

Definition json_response (code : Z) (v : JSON) : Response :=
  mkResponse code "application/json" (Body v).

Definition text_response (code : Z) (s : string) : Response :=
  mkResponse code "text/plain" (Text s).

(** The [file] field of the upload body, as parsed.  For an array or an
    object, [buffer] is what the platform's [Buffer.from] makes of it: the
    buffer it returns, or [None] when it throws. *)
Inductive FileField : Type :=
| FieldNull
| FieldText (text : string)
| FieldNumber (n : Number)
| FieldBool (b : bool)
| FieldObject (buffer : option string).

(** [!file] *)
Definition falsy_field (f : FileField) : bool :=
  match f with
  | FieldNull => true
  | FieldText text => String.eqb text EmptyString
  | FieldNumber n => falsy_number n
  | FieldBool b => negb b
  | FieldObject _ => false
  end.

(** [Buffer.from(file, "base64")]: a string is decoded, leniently, and never
    refused; a number or a boolean raises a [TypeError]. *)
Definition Buffer_from (f : FileField) : option File :=
  match f with
  | FieldText text => Some (Some text)
  | FieldObject (Some buffer) => Some (Some buffer)
  | FieldObject None | FieldNull | FieldNumber _ | FieldBool _ => None
  end.

(** The request body of the upload route once parsed: [None] when
    [JSON.parse] throws; a field that the body lacks reads as [null]. *)
Record UploadBody : Type := mkUploadBody {
  body_productId : Ident;
  body_file : FileField;
  body_certificateId : Ident
}.

(** [!segment] for an element of [pathname.split("/")] *)
Definition falsy_segment (s : option string) : bool :=
  match s with
  | Some seg => String.eqb seg EmptyString
  | None => true
  end.

Definition segment (s : option string) : Ident :=
  IdStr (default EmptyString s).

Definition upload_route (w : World) (body : option UploadBody) : M Response :=
  try_catch
    (let! parsed := match body with
                    | Some b => ret b
                    | None => throw SyntaxError
                    end in
     let productId := body_productId parsed in
     let file := body_file parsed in
     let certificateId := body_certificateId parsed in
     if falsy_ident productId || falsy_field file || falsy_ident certificateId
     then ret (json_response 400
                 (JObj [("success", JBool false);
                        ("message", JStr "Missing productId, file or certificateId")]))
     else
       let! buffer := eval (Buffer_from file) in
       let! success := uploadCertificate w productId buffer certificateId in
       ret (json_response (if success then 200 else 400)
              (JObj [("success", JBool success)])))
    (fun _ => ret (json_response 500
                     (JObj [("success", JBool false);
                            ("error", JStr "Internal error")]))).

Definition handler (w : World) (method pathname : string)
    (body : option UploadBody) : M Response :=
  try_catch
    (if String.eqb pathname "/healthz" && String.eqb method "GET" then
       ret (text_response 200 "ok")
     else if String.eqb pathname "/certificates/upload" && String.eqb method "POST" then
       upload_route w body
     else if String.eqb pathname "/certificates" && String.eqb method "GET" then
       let! productIds := listCertificates in
       ret (json_response 200
              (JObj [("productIds", JArr (JStr <$> productIds));
                     ("total", length_json productIds)]))
     else if js_startsWith pathname "/certificates/" && String.eqb method "GET" then
       let segments := js_split "/" pathname in
       let productId := segments !! 2%nat in
       if falsy_segment productId then
         ret (json_response 400
                (JObj [("success", JBool false);
                       ("message", JStr "Missing productId")]))
       else
         let! certificates := listProductCertificates (segment productId) in
         let responseCode := if (0 <? length certificates)%nat then 200 else 404 in
         ret (json_response responseCode
                (JObj [("certificates", JArr (cert_json <$> certificates))]))
     else if js_startsWith pathname "/certificates/" && String.eqb method "DELETE" then
       let segments := js_split "/" pathname in
       let productId := segments !! 2%nat in
       let certId := segments !! 3%nat in
       if falsy_segment productId || falsy_segment certId then
         ret (json_response 400
                (JObj [("success", JBool false);
                       ("message", JStr "Missing productId or certId")]))
       else
         let! success :=
           deleteProductCertificate (segment productId) (segment certId) in
         ret (json_response (if success then 200 else 400)
                (JObj [("success", JBool success)]))
     else if String.eqb method "GET" && String.eqb pathname "/" then
       ret (text_response 200 ("certificate-validation service running" ++
                               String (ascii_of_nat 10) EmptyString))
     else
       ret (json_response 404 (JObj [("error", JStr "Not found")])))
    (fun _ => ret (json_response 500 (JObj [("error", JStr "Internal error")]))).

(** The listener from its first line.  [pathnameOf] is the platform's
    [new URL(req.url ?? "/", base).pathname], which percent-encodes and
    normalises the request target and which the routes use as it is, without
    decoding; it is [None] when the constructor throws, which the listener's
    own [catch] answers. *)
Definition listener (pathnameOf : string -> option string) (w : World)
    (method url : string) (body : option UploadBody) : M Response :=
  match pathnameOf url with
  | Some pathname => handler w method pathname body
  | None => ret (json_response 500 (JObj [("error", JStr "Internal error")]))
  end.

(** ** Sample environments *)

Definition row_of (cert validFrom validTo : string) : JSON :=
  JArr [JStr "icon"; JStr cert; JStr "owner"; JStr "scope"; JStr "input";
        JStr "add-on"; JStr "products"; JStr validFrom; JStr validTo].

(** A registry that knows one certificate, valid from 2020 to 2999. *)
Definition registry (cert : string) : string -> string -> Reply :=
  fun searchTerm _ =>
    if String.eqb searchTerm cert
    then Json (JObj [("data", JArr [row_of cert "2020-01-01" "2999-01-01"])])
    else Json (JObj [("data", JArr [])]).

Definition nonce_page : string :=
  "<input id=" ++ quote ++ "wdtNonceFrontendEdit_2" ++ quote ++
  " value=" ++ quote ++ "0a1b2c3d4e" ++ quote ++ ">".

Definition iscc : string := "ISCC-CORSIA-Cert-US201-2440920252".

Definition online : World :=
  mkWorld (Some nonce_page) (registry iscc) (mkDate 2026 11 3)
          1762160400000 "k3x9ab" "2026-11-03T09:00:00.000Z".

(** The registry's page cannot be fetched. *)
Definition offline : World :=
  mkWorld None (registry iscc) (mkDate 2026 11 3)
          1762160400000 "k3x9ab" "2026-11-03T09:00:00.000Z".

(** The registry answers with a certificate that ran from 1 January to
    31 December 2020, its dates written day.month.year. *)
Definition dotted_reply : JSON :=
  JObj [("data", JArr [row_of iscc "01.01.2020" "31.12.2020"])].

Definition dotted : World :=
  mkWorld (Some nonce_page) (fun _ _ => Json dotted_reply) (mkDate 2026 11 3)
          1762160400000 "k3x9ab" "2026-11-03T09:00:00.000Z".

(** The registry answers with a row whose expiry cell is an object that
    shadows [toString]. *)
Definition shadowed_reply : JSON :=
  JObj [("data",
         JArr [JArr [JStr "icon"; JStr iscc; JStr "owner"; JStr "scope";
                     JStr "input"; JStr "add-on"; JStr "products";
                     JStr "2020-01-01"; JObj [("toString", JNum 1)]]])].

Definition shadowed : World :=
  mkWorld (Some nonce_page) (fun _ _ => Json shadowed_reply) (mkDate 2026 11 3)
          1762160400000 "k3x9ab" "2026-11-03T09:00:00.000Z".

(** ** Histories of store operations *)

Inductive Op : Type :=
| Upload (w : World) (productId : Ident) (file : File) (certificateId : Ident)
| List_
| ListProduct (productId : Ident)
| DeleteProduct (productId : Ident)
| DeleteCertificate (productId certId : Ident).

Definition run (op : Op) (st : State) : State :=
  match op with
  | Upload w productId file certificateId =>
      final (uploadCertificate w productId file certificateId st)
  | List_ => final (listCertificates st)
  | ListProduct productId => final (listProductCertificates productId st)
  | DeleteProduct productId => final (deleteCertificate productId st)
  | DeleteCertificate productId certId =>
      final (deleteProductCertificate productId certId st)
  end.

(** The same operation with every identifier argument replaced by the string
    that [String] makes of it. *)
Definition coerced (op : Op) : Op :=
  match op with
  | Upload w productId file certificateId =>
      Upload w (IdStr (String_of productId)) file (IdStr (String_of certificateId))
  | List_ => List_
  | ListProduct productId => ListProduct (IdStr (String_of productId))
  | DeleteProduct productId => DeleteProduct (IdStr (String_of productId))
  | DeleteCertificate productId certId =>
      DeleteCertificate (IdStr (String_of productId)) (IdStr (String_of certId))
  end.

(** The state after a history, oldest operation first. *)
Definition run_all (ops : list Op) (st : State) : State :=
  fold_left (fun s op => run op s) ops st.

(** Every stored record sits under its own [productId] and owns at least one
    certificate. *)
Definition store_ok (m : gmap string Product) : Prop :=
  forall k p, m !! k = Some p -> productId p = k /\ certificates p <> [].

(** Every stored certificate is marked verified. *)
Definition all_verified (m : gmap string Product) : Prop :=
  forall k p c, m !! k = Some p -> In c (certificates p) -> verified c = true.

(** ** The registry client's verdict, and the specification's condition *)

(** The state after [calls] have been sent. *)
Definition sent (calls : list NetCall) (st : State) : State :=
  mkState (mockStorage st) (netLog st ++ calls).

(** Lines 76 to 100 of [verifyCertificate] as a function of the parsed reply;
    [None] when a conversion raises. *)
Definition verdict (today productId : string) (responseJson : JSON)
    : option (JSON * bool) :=
  if negb (js_truthy responseJson) then Some (JNull, false) else
  match js_prop "data" responseJson with
  | Some (JArr (JArr row :: rest)) =>
      valid ← validCertificate today (JArr row :: rest) row productId;
      Some (nullish (row !! 8%nat), valid)
  | _ => Some (JNull, false)
  end.

(** What the code's validity amounts to: exactly one row is returned, its
    subject cell renders as the queried identifier, both bound cells are
    present and are strings (or render as strings), and today's ISO date lies
    between them in the order of strings, both ends included.  [expiry] is
    the upper bound cell. *)
Definition string_valid (today certificateId : string) (responseJson expiry : JSON)
    : Prop :=
  exists row validFrom sFrom sTo,
    js_prop "data" responseJson = Some (JArr [JArr row]) /\
    js_String_at row 1 = Some certificateId /\
    row !! 7%nat = Some validFrom /\ validFrom <> JNull /\
    row !! 8%nat = Some expiry /\ expiry <> JNull /\
    ToPrimitive validFrom = Some (PStr sFrom) /\
    ToPrimitive expiry = Some (PStr sTo) /\
    String.ltb today sFrom = false /\
    String.ltb sTo today = false.

(** The validity condition in the specification's words: exactly one row is
    returned, its subject identifier string-equals the queried one, both
    bounds are present, and today's date falls within them, both ends
    included.  [read] is the way a bound cell is read as a calendar date. *)
Definition calendar_valid (read : string -> option Date) (today : Date)
    (certificateId : string) (responseJson : JSON) : Prop :=
  exists row sFrom sTo validFrom validTo,
    js_prop "data" responseJson = Some (JArr [JArr row]) /\
    js_String_at row 1 = Some certificateId /\
    row !! 7%nat = Some (JStr sFrom) /\
    row !! 8%nat = Some (JStr sTo) /\
    read sFrom = Some validFrom /\
    read sTo = Some validTo /\
    date_le validFrom today /\ date_le today validTo.

(** A decimal digit. *)
Definition digit_of (c : ascii) : option N :=
  let n := N_of_ascii c in
  if (48 <=? n)%N && (n <=? 57)%N then Some (n - 48)%N else None.

(** Reads an ISO date, as in ["2020-12-31"]. *)
Definition read_iso (s : string) : option Date :=
  match s with
  | String y1 (String y2 (String y3 (String y4 (String "-" (String m1
      (String m2 (String "-" (String d1 (String d2 EmptyString))))))))) =>
      y1 ← digit_of y1; y2 ← digit_of y2; y3 ← digit_of y3; y4 ← digit_of y4;
      m1 ← digit_of m1; m2 ← digit_of m2;
      d1 ← digit_of d1; d2 ← digit_of d2;
      Some (mkDate (1000 * y1 + 100 * y2 + 10 * y3 + y4) (10 * m1 + m2)
                   (10 * d1 + d2))%N
  | _ => None
  end.

(** Reads a date written day.month.year, as in ["31.12.2020"]. *)
Definition read_dmy (s : string) : option Date :=
  match s with
  | String d1 (String d2 (String "." (String m1 (String m2 (String "."
      (String y1 (String y2 (String y3 (String y4 EmptyString))))))))) =>
      d1 ← digit_of d1; d2 ← digit_of d2;
      m1 ← digit_of m1; m2 ← digit_of m2;
      y1 ← digit_of y1; y2 ← digit_of y2; y3 ← digit_of y3; y4 ← digit_of y4;
      Some (mkDate (1000 * y1 + 100 * y2 + 10 * y3 + y4) (10 * m1 + m2)
                   (10 * d1 + d2))%N
  | _ => None
  end.

(** The cell [row[8]] of the first row of a reply. *)
Definition first_expiry (responseJson expiry : JSON) : Prop :=
  exists row rest,
    js_prop "data" responseJson = Some (JArr (JArr row :: rest)) /\
    nullish (row !! 8%nat) = expiry.

(** Every cell of the first row converts to a string. *)
Definition plain_cells (responseJson : JSON) : Prop :=
  forall row rest cell,
    js_prop "data" responseJson = Some (JArr (JArr row :: rest)) ->
    In cell row -> is_Some (js_String cell).

(** The record that an accepted upload appends, and the product it is
    appended to. *)
Definition certMeta_of (w : World) (productIdStr : string) (expiry : JSON)
    : Certificate :=
  let certId := pretty (dateNow w) ++ "-" ++ randomTag w in
  {| id := certId;
     bucketPath := "mock://certificates/" ++
                   ("certificates/" ++ productIdStr ++ "_" ++ certId ++ ".pdf");
     uploadedAt := isoNow w;
     verified := true;
     validUntil := expiry |}.

Definition existing_or_new (m : gmap string Product) (productIdStr : string)
    : Product :=
  default (mkProduct productIdStr []) (m !! productIdStr).

(** A path segment: no [/] inside. *)
Fixpoint slash_free (s : string) : bool :=
  match s with
  | EmptyString => true
  | String c rest => negb (Ascii.eqb c "/") && slash_free rest
  end.

(** The operation names that [handleRequest] knows. *)
Definition recognized : list string :=
  ["upload"; "delete"; "deleteProductCertificate"; "list";
   "listProductCertificates"].

(** ** Message channel adapter (the subscription's [message] listener)

    The listener acts on the channel besides the process state: it
    acknowledges the message and publishes on the response topic.  Both are
    recorded, in order, next to the [State]. *)

(** [Publish data id]: [data] is the object handed to [JSON.stringify], [id]
    the [correlationId] attribute ([None]: no attributes). *)
Inductive ChannelAction : Type :=
| Ack
| Publish (data : JSON) (correlationId : option string).

Record Process : Type := mkProcess {
  service : State;
  channel : list ChannelAction
}.

Definition P (A : Type) : Type := Process -> Outcome A * Process.

Definition retP {A} (a : A) : P A := fun ps => (Returned a, ps).

Definition bindP {A B} (m : P A) (k : A -> P B) : P B :=
  fun ps =>
    match m ps with
    | (Returned a, ps') => k a ps'
    | (Thrown e, ps') => (Thrown e, ps')
    end.

Definition throwP {A} (e : Exn) : P A := fun ps => (Thrown e, ps).

Definition try_catchP {A} (body : P A) (handler : Exn -> P A) : P A :=
  fun ps =>
    match body ps with
    | (Returned a, ps') => (Returned a, ps')
    | (Thrown e, ps') => handler e ps'
    end.

(** A computation of the services, run inside the listener. *)
Definition lift {A} (m : M A) : P A :=
  fun ps =>
    match m (service ps) with
    | (r, st') => (r, mkProcess st' (channel ps))
    end.

Definition act (a : ChannelAction) : P unit :=
  fun ps => (Returned tt, mkProcess (service ps) (channel ps ++ [a])).

Notation "'let*' x ':=' m 'in' k" := (bindP m (fun x => k))
  (at level 10, x pattern, m at level 100, k at level 200).
Notation "'do*' m 'in' k" := (bindP m (fun _ => k))
  (at level 10, m at level 100, k at level 200).

(** [payload.data], with [None] for a field that is [undefined]. *)
Record RequestData : Type := mkRequestData {
  data_productId : option Ident;
  data_file : File;
  data_certificateId : option Ident
}.

(** The parsed request envelope.  [env_operationType] is [None] when the
    field is absent or not a string; [env_data] is [None] when the envelope
    has no [data] object (a payload that is not an object behaves alike). *)
Record Envelope : Type := mkEnvelope {
  env_operationType : option string;
  env_correlationId : option string;
  env_data : option RequestData
}.

(** An incoming message: the [correlationId] attribute, if any, and the
    result of [JSON.parse(message.data.toString())], [None] when it throws. *)
Record Message : Type := mkMessage {
  attr_correlationId : option string;
  msg_payload : option Envelope
}.

(** [a || b] on optional strings: the first one that is neither [undefined]
    nor empty. *)
Definition or_else (a b : option string) : option string :=
  match a with
  | Some s => if String.eqb s EmptyString then b else Some s
  | None => b
  end.

Definition failedResponse : JSON :=
  JObj [("operationType", JStr "FailedResponse"); ("status", JBool false)].

(** [handleRequest] called with an operation type that may be [undefined],
    and with its parameter defaults applied. *)
Definition dispatch (w : World) (payload : Envelope) (data : RequestData)
    : M (option JSON) :=
  let productId := default (IdStr EmptyString) (data_productId data) in
  let file := data_file data in
  let certificateId := default (IdStr EmptyString) (data_certificateId data) in
  match env_operationType payload with
  | Some requestType => handleRequest w requestType productId file certificateId
  | None => ret None
  end.

Definition onMessage (w : World) (message : Message) : P unit :=
  try_catchP
    (let* payload := match msg_payload message with
                     | Some payload => retP payload
                     | None => throwP SyntaxError
                     end in
     let correlationId :=
       or_else (attr_correlationId message) (env_correlationId payload) in
     let* data := match env_data payload with
                  | Some data => retP data
                  | None => throwP TypeError
                  end in
     let* response := lift (dispatch w payload data) in
     do* act Ack in
     let* responsePayload := match response with
                             | Some envelope => retP envelope
                             | None => throwP TypeError
                             end in
     act (Publish responsePayload
            (Some (default "unknown" (or_else correlationId None)))))
    (fun _ => act (Publish failedResponse None)).

(** Every stored certificate points at the object named after its product and
    its own id. *)
Definition paths_ok (m : gmap string Product) : Prop :=
  forall k p c, m !! k = Some p -> In c (certificates p) ->
    bucketPath c =
      "mock://certificates/certificates/" ++ k ++ "_" ++ id c ++ ".pdf".

(** No stored certificate has the empty string as its id. *)
Definition ids_ok (m : gmap string Product) : Prop :=
  forall k p c, m !! k = Some p -> In c (certificates p) -> id c <> EmptyString.

(** ** Proof steps for decimal digits *)

(** Names every digit [x mod 10] that occurs in a hypothesis. *)
Ltac name_digits :=
  repeat match goal with
  | H : context [N.modulo ?x 10] |- _ =>
      let v := fresh "v" in set (v := N.modulo x 10) in *; clearbody v
  end.

(** Splits on every three-way comparison left in the goal. *)
Ltac split_compare :=
  repeat match goal with
  | |- context [N.compare ?x ?y] => destruct (N.compare_spec x y)
  end.

(** * Properties *)

(** ** ISO dates compare as calendar dates *)

Lemma digit_compare (a b : N) :
  Ascii.compare (digit a) (digit b) = N.compare (a mod 10) (b mod 10).
Proof.
  unfold digit, Ascii.compare.
  assert (a mod 10 < 10)%N by (apply N.mod_lt; lia).
  assert (b mod 10 < 10)%N by (apply N.mod_lt; lia).
  rewrite !N_ascii_embedding by lia.
  destruct (N.compare_spec (a mod 10) (b mod 10)),
           (N.compare_spec (48 + a mod 10) (48 + b mod 10)); try done; lia.
Qed.

Lemma digits2 (n : N) :
  (n <= 99)%N ->
  (n = 10 * ((n / 10) mod 10) + n mod 10 /\
   (n / 10) mod 10 < 10 /\ n mod 10 < 10)%N.
Proof. intros. zify. Z.to_euclidean_division_equations. lia. Qed.

Lemma digits4 (n : N) :
  (n <= 9999)%N ->
  (n = 1000 * ((n / 1000) mod 10) + 100 * ((n / 100) mod 10) +
       10 * ((n / 10) mod 10) + n mod 10 /\
   (n / 1000) mod 10 < 10 /\ (n / 100) mod 10 < 10 /\
   (n / 10) mod 10 < 10 /\ n mod 10 < 10)%N.
Proof. intros. zify. Z.to_euclidean_division_equations. lia. Qed.

(** The string order on rendered dates is the strict calendar order. *)
Lemma iso_ltb (a b : Date) :
  wf_date a -> wf_date b ->
  String.ltb (toISODate a) (toISODate b) = true <-> ~ date_le b a.
Proof.
  destruct a as [y m d], b as [y' m' d'].
  unfold wf_date, date_le, String.ltb, toISODate, pad4, pad2. simpl.
  intros (Hy & Hm & Hd) (Hy' & Hm' & Hd').
  rewrite !digit_compare.
  change (Ascii.compare "-" "-") with Eq. cbv iota.
  destruct (digits4 y Hy) as (Ey & ? & ? & ? & ?).
  destruct (digits4 y' Hy') as (Ey' & ? & ? & ? & ?).
  destruct (digits2 m Hm) as (Em & ? & ?).
  destruct (digits2 m' Hm') as (Em' & ? & ?).
  destruct (digits2 d Hd) as (Ed & ? & ?).
  destruct (digits2 d' Hd') as (Ed' & ? & ?).
  name_digits. split_compare; split; try done; lia.
Qed.

Lemma date_le_dec (a b : Date) : date_le a b \/ ~ date_le a b.
Proof. unfold date_le. lia. Qed.

Lemma iso_le (a b : Date) :
  wf_date a -> wf_date b ->
  negb (String.ltb (toISODate b) (toISODate a)) = true <-> date_le a b.
Proof.
  intros Ha Hb. rewrite negb_true_iff, <- not_true_iff_false, (iso_ltb b a Hb Ha).
  destruct (date_le_dec a b); tauto.
Qed.

(** ** Store operations as state transformers *)

Lemma state_eta (st : State) : mkState (mockStorage st) (netLog st) = st.
Proof. by destruct st. Qed.

Lemma find_none_filter (cid : Ident) (cs : list Certificate) :
  List.find (same_id cid) cs = None ->
  List.filter (fun c => negb (same_id cid c)) cs = cs.
Proof.
  induction cs as [|c cs IH]; simpl; [done|].
  destruct (same_id cid c) eqn:E; simpl; [done|].
  intros H. by rewrite IH.
Qed.

Lemma find_filter_out (cid : Ident) (cs : list Certificate) :
  List.find (same_id cid) (List.filter (fun c => negb (same_id cid c)) cs) = None.
Proof.
  induction cs as [|c cs IH]; simpl; [done|].
  destruct (same_id cid c) eqn:E; simpl; [done|].
  by rewrite E.
Qed.

(** What [deleteProductCertificate] computes, branch by branch. *)
Lemma deleteProductCertificate_unfold (pid cid : Ident) (st : State) :
  deleteProductCertificate pid cid st =
  match mockStorage st !! String_of pid with
  | None => (Returned false, st)
  | Some existing =>
      match List.find (same_id cid) (certificates existing) with
      | None => (Returned false, st)
      | Some _ =>
          let updated :=
            List.filter (fun c => negb (same_id cid c)) (certificates existing) in
          (Returned true,
           mkState (if (0 <? length updated)%nat
                    then <[String_of pid := with_certificates existing updated]>
                           (mockStorage st)
                    else delete (String_of pid) (mockStorage st))
                   (netLog st))
      end
  end.
Proof.
  unfold deleteProductCertificate, try_catch, bind, storage, ret. simpl.
  destruct (mockStorage st !! String_of pid) as [existing|]; [|done].
  destruct (List.find _ _); [|done].
  simpl. by destruct (0 <? _)%nat.
Qed.

Lemma deleteProductCertificate_returns (pid cid : Ident) (st : State) :
  exists b, result (deleteProductCertificate pid cid st) = Returned b.
Proof.
  rewrite deleteProductCertificate_unfold.
  destruct (mockStorage st !! String_of pid) as [existing|]; [|by exists false].
  destruct (List.find _ _); [by exists true|by exists false].
Qed.

Lemma deleteProductCertificate_netLog (pid cid : Ident) (st : State) :
  netLog (final (deleteProductCertificate pid cid st)) = netLog st.
Proof.
  rewrite deleteProductCertificate_unfold.
  destruct (mockStorage st !! String_of pid) as [existing|]; [|done].
  by destruct (List.find _ _).
Qed.

Lemma listProductCertificates_unfold (pid : Ident) (st : State) :
  listProductCertificates pid st =
  (Returned match mockStorage st !! String_of pid with
            | Some p => certificates p
            | None => []
            end, st).
Proof.
  unfold listProductCertificates, try_catch, bind, storage, ret. simpl.
  by destruct (mockStorage st !! String_of pid).
Qed.

Lemma listCertificates_unfold (st : State) :
  listCertificates st =
  (Returned (productId <$> (map_to_list (mockStorage st)).*2), st).
Proof. done. Qed.

Lemma deleteCertificate_unfold (pid : Ident) (st : State) :
  deleteCertificate pid st =
  (Returned true, mkState (delete (String_of pid) (mockStorage st)) (netLog st)).
Proof. done. Qed.

(** A product id is listed exactly when the store holds a record carrying it. *)
Lemma listed_iff (st : State) (name : string) :
  In name (productId <$> (map_to_list (mockStorage st)).*2) <->
  exists k p, mockStorage st !! k = Some p /\ productId p = name.
Proof.
  rewrite <- list_elem_of_In, list_elem_of_fmap. split.
  - intros (p & -> & Hp). apply list_elem_of_fmap in Hp as ([k p'] & -> & Hkp).
    apply elem_of_map_to_list in Hkp. by exists k, p'.
  - intros (k & p & Hk & <-). exists p. split; [done|].
    apply list_elem_of_fmap. exists (k, p). split; [done|].
    by apply elem_of_map_to_list.
Qed.

(** ** Registry client *)

Lemma verifyCertificate_unfold (w : World) (cid : string) (st : State) :
  verifyCertificate w cid st =
  match page w with
  | None => (Thrown NetworkError, sent [GetPage] st)
  | Some text =>
      let st' := sent [GetPage; PostQuery cid (wdtNonce_of text)] st in
      match table w cid (wdtNonce_of text) with
      | Json responseJson =>
          match verdict (toISODate (today w)) cid responseJson with
          | Some r => (Returned r, st')
          | None => (Thrown TypeError, st')
          end
      | _ => (Returned (JNull, false), st')
      end
  end.
Proof.
  unfold verifyCertificate, fetch_page, fetch_table, try_catch, bind, send,
    throw, ret, sent, verdict.
  simpl. destruct (page w) as [text|]; simpl; [|done].
  rewrite <- app_assoc. simpl.
  destruct (table w cid (wdtNonce_of text)) as [| |responseJson]; simpl; try done.
  destruct (js_truthy responseJson); simpl; [|done].
  destruct (js_prop "data" responseJson) as [[| | | |data|]|]; simpl; try done.
  destruct data as [|[| | | |row|] rest]; simpl; try done.
  by destruct (validCertificate _ _ _ _) as [[]|].
Qed.

Lemma not_null_true (v : JSON) : not_null v = true <-> v <> JNull.
Proof. destruct v; simpl; split; try done. Qed.

Lemma nullish_not_null (x : option JSON) (v : JSON) :
  nullish x = v -> v <> JNull -> x = Some v.
Proof. destruct x; simpl; intros <-; done. Qed.

Lemma and_then_true (a b : option bool) :
  a &&& b = Some true <-> a = Some true /\ b = Some true.
Proof. destruct a as [[]|]; simpl; split; try done; by intros []. Qed.

Lemma validCertificate_true (today cid : string) (data row : list JSON) :
  validCertificate today data row cid = Some true <->
  nullish (row !! 8%nat) <> JNull /\ nullish (row !! 7%nat) <> JNull /\
  js_ge_date (nullish (row !! 8%nat)) today = Some true /\
  js_le_date (nullish (row !! 7%nat)) today = Some true /\
  length data = 1%nat /\ js_String_at row 1 = Some cid.
Proof.
  unfold validCertificate. rewrite !and_then_true, <- !not_null_true.
  assert (Hid : (s ← js_String_at row 1; Some (String.eqb s cid)) = Some true
                <-> js_String_at row 1 = Some cid).
  { destruct (js_String_at row 1) as [s|]; simpl; [|done].
    split.
    - intros [= H]. apply String.eqb_eq in H. by subst.
    - intros [= ->]. by rewrite String.eqb_refl. }
  rewrite Hid. split.
  - intros [[[[[Hn8 Hn7] ?] ?] Hlen] ?].
    injection Hn8 as ->. injection Hn7 as ->. injection Hlen as Hlen.
    apply Nat.eqb_eq in Hlen. done.
  - intros (-> & -> & ? & ? & -> & ?). done.
Qed.

Lemma ToPrimitive_plain (v : JSON) : is_Some (js_String v) -> is_Some (ToPrimitive v).
Proof. destruct v; simpl; try done; intros [s ->]; done. Qed.

Lemma js_ge_date_plain (v : JSON) (date : string) :
  is_Some (js_String v) -> is_Some (js_ge_date v date).
Proof.
  intros H. apply ToPrimitive_plain in H as [p Hp].
  unfold js_ge_date. rewrite Hp. by destruct p.
Qed.

Lemma js_le_date_plain (v : JSON) (date : string) :
  is_Some (js_String v) -> is_Some (js_le_date v date).
Proof.
  intros H. apply ToPrimitive_plain in H as [p Hp].
  unfold js_le_date. rewrite Hp. by destruct p.
Qed.

Lemma nullish_plain (row : list JSON) (i : nat) :
  (forall cell, In cell row -> is_Some (js_String cell)) ->
  is_Some (js_String (nullish (row !! i))).
Proof.
  intros H. destruct (row !! i) as [v|] eqn:E; simpl; [|done].
  apply H. apply list_elem_of_In. by eapply list_elem_of_lookup_2.
Qed.

Lemma validCertificate_plain (today cid : string) (data row : list JSON) :
  (forall cell, In cell row -> is_Some (js_String cell)) ->
  is_Some (validCertificate today data row cid).
Proof.
  intros H. unfold validCertificate.
  destruct (js_ge_date_plain _ today (nullish_plain row 8 H)) as [b8 ->].
  destruct (js_le_date_plain _ today (nullish_plain row 7 H)) as [b7 ->].
  assert (Hs : is_Some (js_String_at row 1)).
  { unfold js_String_at. destruct (row !! 1%nat) as [v|] eqn:E; [|done].
    apply H. apply list_elem_of_In. by eapply list_elem_of_lookup_2. }
  destruct Hs as [s ->].
  destruct (not_null _), (not_null _), b8, b7, (_ =? _)%nat; done.
Qed.

Lemma js_le_date_true (v : JSON) (date : string) :
  js_le_date v date = Some true <->
  exists s, ToPrimitive v = Some (PStr s) /\ String.ltb date s = false.
Proof.
  unfold js_le_date. destruct (ToPrimitive v) as [[| | |s]|]; split;
    try done; try (by intros (s' & [= ] & _)).
  - intros [= H]. apply negb_true_iff in H. by exists s.
  - intros (s' & [= <-] & H). by rewrite H.
Qed.

Lemma js_ge_date_true (v : JSON) (date : string) :
  js_ge_date v date = Some true <->
  exists s, ToPrimitive v = Some (PStr s) /\ String.ltb s date = false.
Proof.
  unfold js_ge_date. destruct (ToPrimitive v) as [[| | |s]|]; split;
    try done; try (by intros (s' & [= ] & _)).
  - intros [= H]. apply negb_true_iff in H. by exists s.
  - intros (s' & [= <-] & H). by rewrite H.
Qed.

Lemma verdict_valid (today cid : string) (responseJson v : JSON) :
  verdict today cid responseJson = Some (v, true) <->
  string_valid today cid responseJson v.
Proof.
  unfold verdict, string_valid. split.
  - destruct (js_truthy responseJson); simpl; [|done].
    destruct (js_prop "data" responseJson) as [[| | | |data|]|]; try done.
    destruct data as [|[| | | |row|] rest]; try done.
    destruct (validCertificate _ _ _ _) as [[]|] eqn:E; simpl; try done.
    intros [= <-]. apply validCertificate_true in E
      as (H8 & H7 & Hge & Hle & Hlen & Hid).
    destruct rest; [|done].
    apply js_le_date_true in Hle as (sFrom & HpF & HF).
    apply js_ge_date_true in Hge as (sTo & HpT & HT).
    exists row, (nullish (row !! 7%nat)), sFrom, sTo.
    repeat split; try done; by apply nullish_not_null.
  - intros (row & validFrom & sFrom & sTo & Hdata & Hid & H7 & Hn7 & H8 & Hn8
            & HpF & HpT & HF & HT).
    destruct responseJson; try done. simpl in *. rewrite Hdata.
    assert (E : validCertificate today [JArr row] row cid = Some true).
    { apply validCertificate_true. rewrite H7, H8. simpl.
      repeat split; try done.
      - apply js_ge_date_true. by exists sTo.
      - apply js_le_date_true. by exists sFrom. }
    rewrite E. simpl. by rewrite H8.
Qed.

Lemma verdict_invalid (today cid : string) (responseJson v : JSON) :
  verdict today cid responseJson = Some (v, false) ->
  v = JNull \/ first_expiry responseJson v.
Proof.
  unfold verdict, first_expiry.
  destruct (js_truthy responseJson); simpl; [|intros [= <-]; by left].
  destruct (js_prop "data" responseJson) as [[| | | |data|]|];
    try (intros [= <-]; by left).
  destruct data as [|[| | | |row|] rest]; try (intros [= <-]; by left).
  destruct (validCertificate _ _ _ _) as [[]|]; simpl; try done.
  intros [= <-]. right. by exists row, rest.
Qed.

Lemma verdict_plain (today cid : string) (responseJson : JSON) :
  plain_cells responseJson -> is_Some (verdict today cid responseJson).
Proof.
  unfold verdict, plain_cells. intros H.
  destruct (js_truthy responseJson); simpl; [|done].
  destruct (js_prop "data" responseJson) as [[| | | |data|]|]; try done.
  destruct data as [|[| | | |row|] rest]; try done.
  destruct (validCertificate_plain today cid (JArr row :: rest) row) as [b ->].
  - intros cell Hin. by eapply H.
  - done.
Qed.

Lemma calendar_iso (read : string -> option Date) (today validFrom validTo : Date)
    (cid : string) (responseJson : JSON) (row : list JSON) :
  wf_date today -> wf_date validFrom -> wf_date validTo ->
  js_prop "data" responseJson = Some (JArr [JArr row]) ->
  row !! 7%nat = Some (JStr (toISODate validFrom)) ->
  row !! 8%nat = Some (JStr (toISODate validTo)) ->
  read (toISODate validFrom) = Some validFrom ->
  read (toISODate validTo) = Some validTo ->
  string_valid (toISODate today) cid responseJson (JStr (toISODate validTo)) <->
  calendar_valid read today cid responseJson.
Proof.
  intros Ht Hf Hu Hdata H7 H8 HrF HrT. unfold string_valid, calendar_valid. split.
  - intros (row' & from' & sFrom & sTo & Hdata' & Hid & H7' & _ & H8' & _
            & HpF & HpT & HF & HT).
    rewrite Hdata in Hdata'. injection Hdata' as <-.
    rewrite H7 in H7'. injection H7' as <-.
    cbn [ToPrimitive] in HpF, HpT. injection HpF as <-. injection HpT as <-.
    exists row, (toISODate validFrom), (toISODate validTo), validFrom, validTo.
    do 6 (split; [done|]).
    split; apply iso_le; try done; by apply negb_true_iff.
  - intros (row' & sFrom & sTo & dFrom & dTo & Hdata' & Hid & H7' & H8'
            & HrF' & HrT' & Hle & Hge).
    rewrite Hdata in Hdata'. injection Hdata' as <-.
    rewrite H7 in H7'. injection H7' as <-.
    rewrite H8 in H8'. injection H8' as <-.
    rewrite HrF in HrF'. injection HrF' as <-.
    rewrite HrT in HrT'. injection HrT' as <-.
    exists row, (JStr (toISODate validFrom)), (toISODate validFrom),
      (toISODate validTo).
    do 8 (split; [done|]).
    split; apply negb_true_iff, iso_le; done.
Qed.




(** ** Uploads *)

Lemma verifyCertificate_storage (w : World) (cid : string) (st : State) :
  mockStorage (final (verifyCertificate w cid st)) = mockStorage st.
Proof.
  rewrite verifyCertificate_unfold.
  destruct (page w) as [text|]; simpl; [|done].
  destruct (table w cid (wdtNonce_of text)) as [| |responseJson]; try done.
  by destruct (verdict _ _ _).
Qed.

Lemma uploadCertificate_unfold (w : World) (pid : Ident) (f : File)
    (cid : Ident) (st : State) :
  uploadCertificate w pid f cid st =
  match verifyCertificate w (String_of cid) st with
  | (Returned (expiry, true), st') =>
      let p := existing_or_new (mockStorage st') (String_of pid) in
      (Returned true,
       mkState (<[String_of pid :=
                   with_certificates p
                     (certificates p ++ [certMeta_of w (String_of pid) expiry])]>
                  (mockStorage st'))
               (netLog st'))
  | (Returned (_, false), st') => (Returned false, st')
  | (Thrown e, st') => (Thrown e, st')
  end.
Proof.
  unfold uploadCertificate, bind.
  destruct (verifyCertificate w (String_of cid) st) as [[[expiry []]|e] st']; done.
Qed.

(** An upload that does not return [true] leaves the store as it was. *)
Lemma uploadCertificate_rejected (w : World) (pid : Ident) (f : File)
    (cid : Ident) (st : State) :
  result (uploadCertificate w pid f cid st) <> Returned true ->
  mockStorage (final (uploadCertificate w pid f cid st)) = mockStorage st.
Proof.
  rewrite uploadCertificate_unfold.
  pose proof (verifyCertificate_storage w (String_of cid) st) as Hs.
  destruct (verifyCertificate w (String_of cid) st) as [[[expiry []]|e] st'];
    simpl in *; done.
Qed.

(** An upload whose verification returns a negative verdict returns [false]. *)
Lemma uploadCertificate_invalid (w : World) (pid : Ident) (f : File)
    (cid : Ident) (st : State) (v : JSON) :
  result (verifyCertificate w (String_of cid) st) = Returned (v, false) ->
  result (uploadCertificate w pid f cid st) = Returned false /\
  mockStorage (final (uploadCertificate w pid f cid st)) = mockStorage st.
Proof.
  intros H. split.
  - rewrite uploadCertificate_unfold.
    destruct (verifyCertificate w (String_of cid) st) as [[[expiry []]|e] st'];
      simpl in *; congruence.
  - apply uploadCertificate_rejected.
    rewrite uploadCertificate_unfold.
    destruct (verifyCertificate w (String_of cid) st) as [[[expiry []]|e] st'];
      simpl in *; congruence.
Qed.

(** ** Invariants of the store *)

Lemma store_ok_empty : store_ok ∅.
Proof. intros k p H. by rewrite lookup_empty in H. Qed.

Lemma store_ok_delete (m : gmap string Product) (k : string) :
  store_ok m -> store_ok (delete k m).
Proof.
  intros Hm k' p H. apply lookup_delete_Some in H as [_ H]. by apply Hm.
Qed.

Lemma store_ok_insert (m : gmap string Product) (k : string) (p : Product) :
  store_ok m -> productId p = k -> certificates p <> [] ->
  store_ok (<[k := p]> m).
Proof.
  intros Hm Hk Hc k' p' H. apply lookup_insert_Some in H as [[<- <-]|[_ H]].
  - done.
  - by apply Hm.
Qed.

Lemma existing_or_new_productId (m : gmap string Product) (k : string) :
  store_ok m -> productId (existing_or_new m k) = k.
Proof.
  intros Hm. unfold existing_or_new.
  destruct (m !! k) as [p|] eqn:E; simpl; [|done]. by apply (Hm k p).
Qed.

Lemma store_ok_upload (w : World) (pid : Ident) (f : File) (cid : Ident)
    (st : State) :
  store_ok (mockStorage st) ->
  store_ok (mockStorage (final (uploadCertificate w pid f cid st))).
Proof.
  intros Hm. rewrite uploadCertificate_unfold.
  pose proof (verifyCertificate_storage w (String_of cid) st) as Hs.
  destruct (verifyCertificate w (String_of cid) st) as [[[expiry []]|e] st'];
    simpl in *; rewrite Hs; try done.
  apply store_ok_insert; [done| |].
  - simpl. by apply existing_or_new_productId.
  - simpl. by destruct (certificates _).
Qed.

Lemma store_ok_deleteCertificate (pid : Ident) (st : State) :
  store_ok (mockStorage st) ->
  store_ok (mockStorage (final (deleteCertificate pid st))).
Proof. intros Hm. rewrite deleteCertificate_unfold. by apply store_ok_delete. Qed.

Lemma store_ok_deleteProductCertificate (pid cid : Ident) (st : State) :
  store_ok (mockStorage st) ->
  store_ok (mockStorage (final (deleteProductCertificate pid cid st))).
Proof.
  intros Hm. rewrite deleteProductCertificate_unfold.
  destruct (mockStorage st !! String_of pid) as [existing|] eqn:E; [|done].
  destruct (List.find _ _); [|done].
  simpl. destruct (0 <? _)%nat eqn:Hlen.
  - apply store_ok_insert; [done| |].
    + simpl. by apply (Hm _ _ E).
    + simpl. intros Hnil. by rewrite Hnil in Hlen.
  - by apply store_ok_delete.
Qed.

Lemma store_ok_run (op : Op) (st : State) :
  store_ok (mockStorage st) -> store_ok (mockStorage (run op st)).
Proof.
  destruct op; cbn [run].
  - apply store_ok_upload.
  - done.
  - by rewrite listProductCertificates_unfold.
  - apply store_ok_deleteCertificate.
  - apply store_ok_deleteProductCertificate.
Qed.

Lemma store_ok_run_all (ops : list Op) (st : State) :
  store_ok (mockStorage st) -> store_ok (mockStorage (run_all ops st)).
Proof.
  revert st. induction ops as [|op ops IH]; intros st Hm; simpl; [done|].
  apply IH. by apply store_ok_run.
Qed.

Lemma all_verified_empty : all_verified ∅.
Proof. intros k p c H. by rewrite lookup_empty in H. Qed.

Lemma all_verified_delete (m : gmap string Product) (k : string) :
  all_verified m -> all_verified (delete k m).
Proof.
  intros Hm k' p c H. apply lookup_delete_Some in H as [_ H]. by apply (Hm k').
Qed.

Lemma all_verified_insert (m : gmap string Product) (k : string) (p : Product) :
  all_verified m ->
  (forall c, In c (certificates p) -> verified c = true) ->
  all_verified (<[k := p]> m).
Proof.
  intros Hm Hp k' p' c H. apply lookup_insert_Some in H as [[<- <-]|[_ H]].
  - apply Hp.
  - by apply (Hm k').
Qed.

Lemma all_verified_upload (w : World) (pid : Ident) (f : File) (cid : Ident)
    (st : State) :
  all_verified (mockStorage st) ->
  all_verified (mockStorage (final (uploadCertificate w pid f cid st))).
Proof.
  intros Hm. rewrite uploadCertificate_unfold.
  pose proof (verifyCertificate_storage w (String_of cid) st) as Hs.
  destruct (verifyCertificate w (String_of cid) st) as [[[expiry []]|e] st'];
    simpl in *; rewrite Hs; try done.
  apply all_verified_insert; [done|].
  simpl. intros c Hc. apply in_app_or in Hc as [Hc|[<-|[]]]; [|done].
  unfold existing_or_new in Hc.
  destruct (mockStorage st !! String_of pid) as [p|] eqn:E; simpl in Hc; [|done].
  by apply (Hm _ _ _ E).
Qed.

Lemma all_verified_deleteProductCertificate (pid cid : Ident) (st : State) :
  all_verified (mockStorage st) ->
  all_verified (mockStorage (final (deleteProductCertificate pid cid st))).
Proof.
  intros Hm. rewrite deleteProductCertificate_unfold.
  destruct (mockStorage st !! String_of pid) as [existing|] eqn:E; [|done].
  destruct (List.find _ _); [|done].
  simpl. destruct (0 <? _)%nat.
  - apply all_verified_insert; [done|].
    simpl. intros c' Hc. apply filter_In in Hc as [Hc _]. by apply (Hm _ _ _ E).
  - by apply all_verified_delete.
Qed.

Lemma all_verified_run (op : Op) (st : State) :
  all_verified (mockStorage st) -> all_verified (mockStorage (run op st)).
Proof.
  destruct op; cbn [run].
  - apply all_verified_upload.
  - done.
  - by rewrite listProductCertificates_unfold.
  - intros Hm. rewrite deleteCertificate_unfold. by apply all_verified_delete.
  - apply all_verified_deleteProductCertificate.
Qed.

(** Whatever the history, every stored certificate is marked verified. *)
Lemma all_verified_run_all (ops : list Op) :
  all_verified (mockStorage (run_all ops initial)).
Proof.
  assert (H : forall st, all_verified (mockStorage st) ->
                         all_verified (mockStorage (run_all ops st))).
  { induction ops as [|op ops IH]; intros st Hm; simpl; [done|].
    apply IH. by apply all_verified_run. }
  apply H, all_verified_empty.
Qed.

(** ** Deleting certificates *)

(** C5. After any history of store operations no stored product record has an
    empty certificate sequence; and deleting the only certificate of a product
    removes its record, so that listing the product's certificates returns
    the empty sequence and its id is no longer among the listed ids. *)
Theorem no_empty_product (ops : list Op) :
  let st := run_all ops initial in
  store_ok (mockStorage st) /\
  forall pid cid p c,
    mockStorage st !! String_of pid = Some p ->
    certificates p = [c] ->
    id c = String_of cid ->
    let r := deleteProductCertificate pid cid st in
    result r = Returned true /\
    mockStorage (final r) !! String_of pid = None /\
    result (listProductCertificates pid (final r)) = Returned [] /\
    exists ids, result (listCertificates (final r)) = Returned ids /\
                ~ In (String_of pid) ids.
Proof.
  intros st.
  assert (Hok : store_ok (mockStorage st)).
  { apply store_ok_run_all. apply store_ok_empty. }
  split; [exact Hok|].
  intros pid cid p c Hp Hc Hid r.
  assert (Hr : r = (Returned true,
                    mkState (delete (String_of pid) (mockStorage st)) (netLog st))).
  { unfold r. rewrite deleteProductCertificate_unfold, Hp, Hc. simpl.
    unfold same_id. rewrite Hid, String.eqb_refl. done. }
  rewrite Hr. unfold result, final. cbn [fst snd mockStorage].
  split; [done|]. split; [apply lookup_delete_eq|].
  split.
  - rewrite listProductCertificates_unfold. cbn [fst mockStorage].
    by rewrite lookup_delete_eq.
  - rewrite listCertificates_unfold. eexists. split; [reflexivity|].
    intros Hin. apply listed_iff in Hin as (k & p' & Hk & Hname).
    cbn [mockStorage] in Hk.
    apply lookup_delete_Some in Hk as [Hne Hk].
    apply Hok in Hk as [Hk _]. congruence.
Qed.

Lemma no_empty_product_witness :
  let ops := [Upload online (IdStr "p1") (Some "JVBERi0xLjQK") (IdStr iscc)] in
  let st := run_all ops initial in
  let c := certMeta_of online "p1" (JStr "2999-01-01") in
  let p := mkProduct "p1" [c] in
  let pid := IdStr "p1" in
  let cid := IdStr "1762160400000-k3x9ab" in
  mockStorage st !! String_of pid = Some p /\
  certificates p = [c] /\
  id c = String_of cid /\
  let r := deleteProductCertificate pid cid st in
  result r = Returned true /\
  mockStorage (final r) !! String_of pid = None /\
  result (listProductCertificates pid (final r)) = Returned [] /\
  exists ids, result (listCertificates (final r)) = Returned ids /\
              ~ In (String_of pid) ids.
Proof.
  intros ops st c p pid cid.
  assert (Hp : mockStorage st !! String_of pid = Some p) by (vm_compute; reflexivity).
  split; [exact Hp|]. split; [reflexivity|]. split; [vm_compute; reflexivity|].
  apply (proj2 (no_empty_product ops) pid cid p c Hp); [reflexivity|].
  vm_compute; reflexivity.
Defined.

(** C7. Deleting a certificate returns [false], and changes nothing, when the
    product does not exist or holds no certificate with that id; hence after
    any delete of an id, deleting the same id again returns [false]. *)
Theorem delete_missing_returns_false (pid cid : Ident) (st : State) :
  (mockStorage st !! String_of pid = None ->
   deleteProductCertificate pid cid st = (Returned false, st)) /\
  (forall p, mockStorage st !! String_of pid = Some p ->
             (forall c, In c (certificates p) -> id c <> String_of cid) ->
             deleteProductCertificate pid cid st = (Returned false, st)) /\
  (let st1 := final (deleteProductCertificate pid cid st) in
   deleteProductCertificate pid cid st1 = (Returned false, st1) /\
   deleteProductCertificate pid cid (final (deleteProductCertificate pid cid st1))
     = (Returned false, st1)).
Proof.
  assert (Hnone : forall s, mockStorage s !! String_of pid = None ->
                            deleteProductCertificate pid cid s = (Returned false, s)).
  { intros s H. by rewrite deleteProductCertificate_unfold, H. }
  assert (Hnot : forall s p, mockStorage s !! String_of pid = Some p ->
                   List.find (same_id cid) (certificates p) = None ->
                   deleteProductCertificate pid cid s = (Returned false, s)).
  { intros s p H Hf. by rewrite deleteProductCertificate_unfold, H, Hf. }
  assert (Hagain : forall s,
            deleteProductCertificate pid cid (final (deleteProductCertificate pid cid s))
            = (Returned false, final (deleteProductCertificate pid cid s))).
  { intros s. rewrite (deleteProductCertificate_unfold pid cid s).
    destruct (mockStorage s !! String_of pid) as [existing|] eqn:E;
      [|by apply Hnone].
    destruct (List.find _ _) eqn:F; [|by eapply Hnot].
    simpl. destruct (0 <? _)%nat.
    - eapply Hnot; simpl.
      + apply lookup_insert_eq.
      + simpl. apply find_filter_out.
    - apply Hnone. simpl. apply lookup_delete_eq. }
  split; [apply Hnone|]. split.
  - intros p Hp Hids. apply (Hnot st p Hp).
    destruct (List.find _ _) as [c|] eqn:F; [|done].
    apply find_some in F as [Hin Hsame]. unfold same_id in Hsame.
    apply String.eqb_eq in Hsame. by apply Hids in Hin.
  - cbv zeta. pose proof (Hagain st) as H1.
    split; [exact H1|]. rewrite H1. exact H1.
Qed.

Lemma delete_missing_returns_false_witness :
  let st := run_all [Upload online (IdStr "p1") (Some "JVBERi0xLjQK") (IdStr iscc)]
                    initial in
  let p := mkProduct "p1" [certMeta_of online "p1" (JStr "2999-01-01")] in
  (mockStorage st !! String_of (IdStr "p2") = None /\
   deleteProductCertificate (IdStr "p2") (IdStr "1762160400000-k3x9ab") st
     = (Returned false, st)) /\
  (mockStorage st !! String_of (IdStr "p1") = Some p /\
   (forall c, In c (certificates p) -> id c <> String_of (IdStr "unknown")) /\
   deleteProductCertificate (IdStr "p1") (IdStr "unknown") st
     = (Returned false, st)).
Proof.
  intros st p.
  assert (H2 : mockStorage st !! String_of (IdStr "p2") = None)
    by (vm_compute; reflexivity).
  assert (H1 : mockStorage st !! String_of (IdStr "p1") = Some p)
    by (vm_compute; reflexivity).
  assert (Hc : forall c, In c (certificates p) -> id c <> String_of (IdStr "unknown")).
  { intros c [<-|[]]. vm_compute. discriminate. }
  split.
  - split; [exact H2|].
    exact (proj1 (delete_missing_returns_false
                    (IdStr "p2") (IdStr "1762160400000-k3x9ab") st) H2).
  - split; [exact H1|]. split; [exact Hc|].
    exact (proj1 (proj2 (delete_missing_returns_false
                           (IdStr "p1") (IdStr "unknown") st)) p H1 Hc).
Defined.

(** ** Identifier coercion *)

Lemma run_coerced (op : Op) (st : State) : run (coerced op) st = run op st.
Proof.
  destruct op as [w pid f cid| |pid|pid|pid cid]; cbn [run coerced].
  - by rewrite !uploadCertificate_unfold.
  - done.
  - by rewrite !listProductCertificates_unfold.
  - by rewrite !deleteCertificate_unfold.
  - by rewrite !deleteProductCertificate_unfold.
Qed.

Lemma run_all_coerced (ops : list Op) (st : State) :
  run_all (coerced <$> ops) st = run_all ops st.
Proof.
  revert st. induction ops as [|op ops IH]; intros st; [done|].
  rewrite fmap_cons. cbn [run_all fold_left].
  rewrite run_coerced. apply IH.
Qed.

(** C10. Every store operation uses an identifier argument only through
    [String]: calling it with a number is the same computation, with the
    same result and the same final state, as calling it with the string that
    [String] makes of the number, and a whole history of operations ends in
    the same state when every identifier is replaced by its string.  So
    product [42] and product ["42"] address the same record (while the number
    [1e21], rendered ["1e+21"], does not address the record of the string
    ["1000000000000000000000"]). *)
Theorem identifiers_coerced (w : World) (f : File) (x y : Ident) (n : Number)
    (ops : list Op) (st : State) :
  (uploadCertificate w x f y st =
     uploadCertificate w (IdStr (String_of x)) f (IdStr (String_of y)) st /\
   listProductCertificates x st =
     listProductCertificates (IdStr (String_of x)) st /\
   deleteProductCertificate x y st =
     deleteProductCertificate (IdStr (String_of x)) (IdStr (String_of y)) st /\
   deleteCertificate x st = deleteCertificate (IdStr (String_of x)) st) /\
  (uploadCertificate w (IdNum n) f y st =
     uploadCertificate w (IdStr (Number_toString n)) f y st /\
   uploadCertificate w x f (IdNum n) st =
     uploadCertificate w x f (IdStr (Number_toString n)) st /\
   listProductCertificates (IdNum n) st =
     listProductCertificates (IdStr (Number_toString n)) st /\
   deleteProductCertificate (IdNum n) y st =
     deleteProductCertificate (IdStr (Number_toString n)) y st /\
   deleteProductCertificate x (IdNum n) st =
     deleteProductCertificate x (IdStr (Number_toString n)) st /\
   deleteCertificate (IdNum n) st =
     deleteCertificate (IdStr (Number_toString n)) st) /\
  run_all (coerced <$> ops) st = run_all ops st /\
  (String_of (IdNum 42) = String_of (IdStr "42") /\
   mockStorage st !! String_of (IdNum 42)
     = mockStorage st !! String_of (IdStr "42")) /\
  String_of (IdNum (mkNumber "1e+21"))
    <> String_of (IdStr "1000000000000000000000").
Proof.
  split; [|split; [|split; [apply run_all_coerced|split; [done|discriminate]]]].
  - repeat split;
      first [ rewrite !uploadCertificate_unfold
            | rewrite !listProductCertificates_unfold
            | rewrite !deleteProductCertificate_unfold
            | rewrite !deleteCertificate_unfold ];
      reflexivity.
  - repeat split;
      first [ rewrite !uploadCertificate_unfold
            | rewrite !listProductCertificates_unfold
            | rewrite !deleteProductCertificate_unfold
            | rewrite !deleteCertificate_unfold ];
      reflexivity.
Qed.

(** ** Dispatcher *)

Lemma eqb_other (s name : string) : s <> name -> String.eqb s name = false.
Proof. intros H. by apply String.eqb_neq. Qed.

(** C8. A request whose operation type is none of the recognised ones gets no
    response value from the dispatcher, and leaves the state untouched. *)
Theorem unrecognized_dropped (w : World) (requestType : string)
    (pid : Ident) (f : File) (cid : Ident) (st : State) :
  ~ In requestType recognized ->
  handleRequest w requestType pid f cid st = (Returned None, st).
Proof.
  intros H. unfold recognized in H. simpl in H.
  unfold handleRequest.
  rewrite !eqb_other by (intros ->; tauto). done.
Qed.

Lemma unrecognized_dropped_witness :
  ~ In "deleteAll" recognized /\
  handleRequest online "deleteAll" (IdStr "p1") None (IdStr "c1") initial
    = (Returned None, initial).
Proof.
  assert (H : ~ In "deleteAll" recognized).
  { intros Hin. repeat destruct Hin as [Hin|Hin]; try discriminate Hin. exact Hin. }
  split; [exact H|].
  exact (unrecognized_dropped online "deleteAll" (IdStr "p1") None (IdStr "c1")
           initial H).
Defined.

(** C3, counterexample. The envelope that answers the legacy [delete]
    operation carries neither [productId] nor [certificateId]. *)
Lemma delete_envelope_lacks_ids :
  exists envelope,
    result (handleRequest online "delete" (IdStr "p1") None (IdStr "c1") initial)
      = Returned (Some (JObj envelope)) /\
    has_own "status" envelope = true /\
    has_own "productId" envelope = false /\
    has_own "certificateId" envelope = false.
Proof. eexists. repeat split. Qed.

(** C3, amended. Both [delete] and [deleteProductCertificate] run the
    single-certificate delete of the store and answer with its boolean as
    [status]; the envelope of [deleteProductCertificate] also carries
    [productId] and [certificateId], the envelope of [delete] carries only
    [operationType] and [status]. *)
Theorem delete_envelopes (w : World) (pid : Ident) (f : File) (cid : Ident)
    (st : State) :
  exists deleteStatus,
    deleteProductCertificate pid cid st
      = (Returned deleteStatus, final (deleteProductCertificate pid cid st)) /\
    handleRequest w "delete" pid f cid st
      = (Returned (Some (JObj [("operationType", JStr "deleteResponse");
                               ("status", JBool deleteStatus)])),
         final (deleteProductCertificate pid cid st)) /\
    handleRequest w "deleteProductCertificate" pid f cid st
      = (Returned (Some (JObj [("operationType",
                                JStr "deleteProductCertificateResponse");
                               ("productId", ident_json pid);
                               ("certificateId", ident_json cid);
                               ("status", JBool deleteStatus)])),
         final (deleteProductCertificate pid cid st)).
Proof.
  destruct (deleteProductCertificate_returns pid cid st) as [b Hb].
  exists b. unfold handleRequest, bind. simpl.
  destruct (deleteProductCertificate pid cid st) as [[b'|e] st'];
    simpl in *; [|done].
  injection Hb as ->. done.
Qed.

(** ** Gateway *)

Lemma js_split_segment (s : string) :
  slash_free s = true -> js_split "/" s = [s].
Proof.
  induction s as [|c s IH]; simpl; [done|].
  intros H. apply andb_true_iff in H as [Hc Hs].
  apply negb_true_iff in Hc. rewrite Hc, (IH Hs). done.
Qed.

Lemma js_split_cons (s1 s2 : string) :
  slash_free s1 = true ->
  js_split "/" (s1 ++ String "/" s2) = s1 :: js_split "/" s2.
Proof.
  induction s1 as [|c s1 IH]; simpl; [done|].
  intros H. apply andb_true_iff in H as [Hc Hs].
  apply negb_true_iff in Hc. by rewrite Hc, (IH Hs).
Qed.

Lemma falsy_segment_nonempty (pid : string) :
  pid <> EmptyString -> falsy_segment (Some pid) = false.
Proof. intros H. simpl. by apply String.eqb_neq. Qed.

Lemma append_empty (s : string) : s ++ EmptyString = s.
Proof.
  induction s as [|c s IH]; [done|].
  change (String c (s ++ EmptyString) = String c s). by rewrite IH.
Qed.

Lemma certificates_segment (seg tail : string) :
  slash_free seg = true ->
  tail = EmptyString \/ (exists t, tail = String "/" t) ->
  js_split "/" ("/certificates/" ++ seg ++ tail) !! 2%nat = Some seg.
Proof.
  intros Hseg Htail.
  change ("/certificates/" ++ seg ++ tail) with
    (EmptyString ++ String "/" ("certificates" ++ String "/" (seg ++ tail))).
  rewrite js_split_cons by done.
  rewrite (js_split_cons "certificates" (seg ++ tail)) by done.
  destruct Htail as [->|[t ->]].
  - rewrite append_empty.
    by rewrite (js_split_segment seg Hseg).
  - by rewrite (js_split_cons seg t Hseg).
Qed.

Lemma product_route (w : World) (rest : string) (body : option UploadBody)
    (st : State) :
  handler w "GET" ("/certificates/" ++ rest) body st =
  (let productId := js_split "/" ("/certificates/" ++ rest) !! 2%nat in
   if falsy_segment productId then
     (Returned (json_response 400
                  (JObj [("success", JBool false);
                         ("message", JStr "Missing productId")])), st)
   else
     let certificates :=
       match mockStorage st !! default EmptyString productId with
       | Some p => certificates p
       | None => []
       end in
     (Returned (json_response (if (0 <? length certificates)%nat then 200 else 404)
                  (JObj [("certificates", JArr (cert_json <$> certificates))])),
      st)).
Proof.
  unfold handler, try_catch.
  change (String.eqb ("/certificates/" ++ rest) "/healthz") with false.
  change (String.eqb "GET" "POST") with false.
  rewrite andb_false_r.
  change (String.eqb ("/certificates/" ++ rest) "/certificates")
    with (String.eqb (String "/" rest) EmptyString).
  change (js_startsWith ("/certificates/" ++ rest) "/certificates/")
    with (String.prefix EmptyString rest).
  assert (Hpre : String.prefix EmptyString rest = true) by (by destruct rest).
  change (String.eqb "GET" "GET") with true.
  rewrite Hpre. cbn [String.eqb andb]. cbv zeta.
  destruct (falsy_segment _); [done|].
  unfold bind, segment. rewrite listProductCertificates_unfold.
  cbn [String_of]. done.
Qed.

(** C9, counterexample. A product stored under the empty id (an upload
    message without [productId]) has a certificate, yet
    [GET /certificates/] is answered 400; a product whose id holds a slash
    has a certificate, yet the request for it lists another product and is
    answered 404. *)
Lemma product_id_not_reachable :
  (let st := final (uploadCertificate online (IdStr EmptyString)
                      (Some "JVBERi0xLjQK") (IdStr iscc) initial) in
   result (listProductCertificates (IdStr EmptyString) st)
     = Returned [certMeta_of online EmptyString (JStr "2999-01-01")] /\
   handler online "GET" ("/certificates/" ++ EmptyString) None st =
     (Returned (mkResponse 400 "application/json"
                  (Body (JObj [("success", JBool false);
                               ("message", JStr "Missing productId")]))), st)) /\
  (let st := final (uploadCertificate online (IdStr "a/b")
                      (Some "JVBERi0xLjQK") (IdStr iscc) initial) in
   result (listProductCertificates (IdStr "a/b") st)
     = Returned [certMeta_of online "a/b" (JStr "2999-01-01")] /\
   handler online "GET" ("/certificates/" ++ "a/b") None st =
     (Returned (mkResponse 404 "application/json"
                  (Body (JObj [("certificates", JArr [])]))), st)).
Proof. split; split; vm_compute; reflexivity. Qed.

(** C9, amended. For a [GET] request whose URL pathname is
    [/certificates/<segment>], possibly followed by further segments, the
    endpoint looks up the segment as it stands in the pathname, undecoded:
    when the segment is not empty it responds 200 with the certificates
    stored under it if there are any and 404 with an empty list if there are
    none, in particular for an unknown id, for which
    [listProductCertificates] returns the empty sequence and not an error;
    when the segment is empty it responds 400. *)
Theorem get_product_certificates (pathnameOf : string -> option string)
    (w : World) (url seg tail : string) (body : option UploadBody) (st : State) :
  pathnameOf url = Some ("/certificates/" ++ seg ++ tail) ->
  slash_free seg = true ->
  tail = EmptyString \/ (exists t, tail = String "/" t) ->
  let certs := match mockStorage st !! seg with
               | Some p => certificates p
               | None => []
               end in
  (seg <> EmptyString ->
   listProductCertificates (IdStr seg) st = (Returned certs, st) /\
   listener pathnameOf w "GET" url body st =
     (Returned (mkResponse (match certs with [] => 404 | _ :: _ => 200 end)
                  "application/json"
                  (Body (JObj [("certificates", JArr (cert_json <$> certs))]))),
      st)) /\
  (seg <> EmptyString -> mockStorage st !! seg = None ->
   listProductCertificates (IdStr seg) st = (Returned [], st) /\
   listener pathnameOf w "GET" url body st =
     (Returned (mkResponse 404 "application/json"
                  (Body (JObj [("certificates", JArr [])]))), st)) /\
  (seg = EmptyString ->
   listener pathnameOf w "GET" url body st =
     (Returned (mkResponse 400 "application/json"
                  (Body (JObj [("success", JBool false);
                               ("message", JStr "Missing productId")]))), st)).
Proof.
  intros Hurl Hseg Htail certs.
  assert (Hl : listener pathnameOf w "GET" url body st
               = handler w "GET" ("/certificates/" ++ (seg ++ tail)) body st).
  { unfold listener. by rewrite Hurl. }
  rewrite Hl, product_route, (certificates_segment seg tail Hseg Htail).
  cbv zeta. change (default EmptyString (Some seg)) with seg. fold certs.
  assert (Hlist : listProductCertificates (IdStr seg) st = (Returned certs, st)).
  { by rewrite listProductCertificates_unfold. }
  split; [|split].
  - intros Hne. rewrite (falsy_segment_nonempty seg Hne).
    split; [exact Hlist|]. by destruct certs.
  - intros Hne Hnone. rewrite (falsy_segment_nonempty seg Hne).
    rewrite Hlist. unfold certs. by rewrite Hnone.
  - by intros ->.
Qed.

Lemma get_product_certificates_witness :
  let st := run_all [Upload online (IdNum 42) (Some "JVBERi0xLjQK") (IdStr iscc)]
                    initial in
  let certs := [certMeta_of online "42" (JStr "2999-01-01")] in
  let pathnameOf := fun url : string => Some url in
  (pathnameOf "/certificates/42" = Some ("/certificates/" ++ "42" ++ EmptyString) /\
   slash_free "42" = true /\ "42" <> EmptyString) /\
  listener pathnameOf online "GET" "/certificates/42" None st =
    (Returned (mkResponse 200 "application/json"
                 (Body (JObj [("certificates", JArr (cert_json <$> certs))]))), st) /\
  (pathnameOf "/certificates/p9/x" = Some ("/certificates/" ++ "p9" ++ "/x") /\
   slash_free "p9" = true /\ "p9" <> EmptyString /\
   mockStorage st !! "p9" = None) /\
  listener pathnameOf online "GET" "/certificates/p9/x" None st =
    (Returned (mkResponse 404 "application/json"
                 (Body (JObj [("certificates", JArr [])]))), st) /\
  (pathnameOf "/certificates/" = Some ("/certificates/" ++ EmptyString ++ EmptyString)) /\
  listener pathnameOf online "GET" "/certificates/" None st =
    (Returned (mkResponse 400 "application/json"
                 (Body (JObj [("success", JBool false);
                              ("message", JStr "Missing productId")]))), st).
Proof.
  intros st certs pathnameOf.
  assert (H42 : "42" <> EmptyString) by discriminate.
  assert (H9 : "p9" <> EmptyString) by discriminate.
  assert (Hnone : mockStorage st !! "p9" = None) by (vm_compute; reflexivity).
  assert (Hsome : mockStorage st !! "42" = Some (mkProduct "42" certs))
    by (vm_compute; reflexivity).
  split; [split; [reflexivity|split; [reflexivity|exact H42]]|]. split.
  - pose proof (proj2 (proj1 (get_product_certificates pathnameOf online
        "/certificates/42" "42" EmptyString None st eq_refl eq_refl
        (or_introl eq_refl)) H42)) as H.
    cbv zeta in H. rewrite Hsome in H. exact H.
  - split; [split; [reflexivity|split; [reflexivity|split; [exact H9|exact Hnone]]]|].
    split.
    + exact (proj2 (proj1 (proj2 (get_product_certificates pathnameOf online
        "/certificates/p9/x" "p9" "/x" None st eq_refl eq_refl
        (or_intror (ex_intro _ "x" eq_refl)))) H9 Hnone)).
    + split; [reflexivity|].
      exact (proj2 (proj2 (get_product_certificates pathnameOf online
        "/certificates/" EmptyString EmptyString None st eq_refl eq_refl
        (or_introl eq_refl))) eq_refl).
Defined.

(** The gateway checks the three fields before it calls the store: a request
    with a missing field is answered 400, without any request to the registry
    and without any change to the store. *)
Lemma upload_route_missing_field (w : World) (b : UploadBody) (st : State) :
  falsy_ident (body_productId b) || falsy_field (body_file b)
    || falsy_ident (body_certificateId b) = true ->
  handler w "POST" "/certificates/upload" (Some b) st =
    (Returned (json_response 400
                 (JObj [("success", JBool false);
                        ("message", JStr "Missing productId, file or certificateId")])),
     st).
Proof.
  intros H. unfold handler, upload_route, try_catch, bind. simpl.
  unfold ret. simpl. by rewrite H.
Qed.

(** ** Where the code departs from the specification *)

(** C1. [uploadCertificate] itself performs no check of its arguments: with a
    certificate the registry accepts, an upload whose [productId] is empty, or
    whose [file] is [null], queries the registry, returns [true] and creates a
    product entry; with an empty [certificateId] the registry is queried all
    the same.  The dispatcher passes such requests through unchanged. *)
Theorem upload_missing_argument_accepted :
  (let r := uploadCertificate online (IdStr EmptyString) (Some "JVBERi0xLjQK")
              (IdStr iscc) initial in
   result r = Returned true /\
   netLog (final r) = [GetPage; PostQuery iscc "0a1b2c3d4e"] /\
   result (listCertificates (final r)) = Returned [EmptyString]) /\
  (let r := uploadCertificate online (IdStr "p5") None (IdStr iscc) initial in
   result r = Returned true /\
   result (listCertificates (final r)) = Returned ["p5"]) /\
  (let r := uploadCertificate online (IdStr "p3") (Some "JVBERi0xLjQK")
              (IdStr EmptyString) initial in
   result r = Returned false /\
   netLog (final r) = [GetPage; PostQuery EmptyString "0a1b2c3d4e"]) /\
  result (handleRequest online "upload" (IdStr EmptyString) (Some "JVBERi0xLjQK")
            (IdStr iscc) initial)
    = Returned (Some (JObj [("operationType", JStr "uploadResponse");
                            ("status", JBool true)])).
Proof. vm_compute. repeat split. Qed.

(** The failures of the query step are absorbed: a network failure, a body
    that is not JSON, a reply of another shape or an empty result set all
    give [(null, false)]. *)
Lemma verifyCertificate_query_failure (w : World) (cid text : string)
    (st : State) :
  page w = Some text ->
  match table w cid (wdtNonce_of text) with
  | NetworkFailure | NotJson => True
  | Json responseJson =>
      match js_prop "data" responseJson with
      | Some (JArr (JArr _ :: _)) => False
      | _ => True
      end
  end ->
  result (verifyCertificate w cid st) = Returned (JNull, false).
Proof.
  intros Hpage H. rewrite verifyCertificate_unfold, Hpage. simpl.
  destruct (table w cid (wdtNonce_of text)) as [| |responseJson]; try done.
  unfold verdict. destruct (js_truthy responseJson); [|done].
  destruct (js_prop "data" responseJson) as [[| | | |data|]|]; try done.
  destruct data as [|[| | | |row|] rest]; done.
Qed.

(** C2. The fetch of the registry page is not guarded: when it fails,
    [verifyCertificate] rejects with the network error, and so does the
    upload that awaits it.  A reply whose expiry cell is an object shadowing
    [toString] makes the date comparison raise a [TypeError]. *)
Theorem verifyCertificate_throws :
  result (verifyCertificate offline iscc initial) = Thrown NetworkError /\
  result (verifyCertificate shadowed iscc initial) = Thrown TypeError.
Proof. vm_compute. split; reflexivity. Qed.

(** C6. When the registry page cannot be fetched, [uploadCertificate] does not
    return [false]: it rejects with the network error (nothing is stored). *)
Theorem upload_unverifiable_throws :
  let r := uploadCertificate offline (IdStr "p1") (Some "JVBERi0xLjQK")
             (IdStr iscc) initial in
  result r = Thrown NetworkError /\
  result r <> Returned false /\
  mockStorage (final r) = mockStorage initial.
Proof. vm_compute. repeat split. discriminate. Qed.

(** * Further properties of the store *)

Lemma verify_final (w : World) (cid : string) (st : State) :
  final (verifyCertificate w cid st) =
  sent match page w with
       | Some text => [GetPage; PostQuery cid (wdtNonce_of text)]
       | None => [GetPage]
       end st.
Proof.
  rewrite verifyCertificate_unfold.
  destruct (page w) as [text|]; [|done]. simpl.
  destruct (table w cid (wdtNonce_of text)) as [| |responseJson]; try done.
  by destruct (verdict _ _ _).
Qed.

Lemma existing_or_new_certificates (m : gmap string Product) (k : string) :
  certificates (existing_or_new m k) =
  match m !! k with Some p => certificates p | None => [] end.
Proof. unfold existing_or_new. by destruct (m !! k). Qed.

(** What an accepted upload stores. *)
Lemma uploadCertificate_accepted (w : World) (pid : Ident) (f : File)
    (cid : Ident) (st : State) (v : JSON) :
  result (verifyCertificate w (String_of cid) st) = Returned (v, true) ->
  uploadCertificate w pid f cid st =
  (Returned true,
   mkState (<[String_of pid :=
               with_certificates (existing_or_new (mockStorage st) (String_of pid))
                 (certificates (existing_or_new (mockStorage st) (String_of pid))
                    ++ [certMeta_of w (String_of pid) v])]> (mockStorage st))
           (netLog (final (verifyCertificate w (String_of cid) st)))).
Proof.
  intros H. rewrite uploadCertificate_unfold.
  pose proof (verifyCertificate_storage w (String_of cid) st) as Hs.
  destruct (verifyCertificate w (String_of cid) st) as [[[expiry b]|e] st'];
    simpl in *; [|done].
  injection H as -> ->. by rewrite Hs.
Qed.

(** X1. An upload whose certificate the registry confirms returns [true] and
    appends one record, marked verified and carrying the registry's expiry,
    at the end of the product's certificate sequence; the certificates that
    were there stay, in order, and the product id is listed. *)
Theorem upload_accepted_appends (ops : list Op) (w : World) (pid : Ident)
    (f : File) (cid : Ident) (v : JSON) :
  let st := run_all ops initial in
  result (verifyCertificate w (String_of cid) st) = Returned (v, true) ->
  let r := uploadCertificate w pid f cid st in
  let c := certMeta_of w (String_of pid) v in
  result r = Returned true /\
  (exists old,
     result (listProductCertificates pid st) = Returned old /\
     result (listProductCertificates pid (final r)) = Returned (old ++ [c])%list) /\
  (verified c = true /\ validUntil c = v /\
   id c = pretty (dateNow w) ++ "-" ++ randomTag w) /\
  exists ids, result (listCertificates (final r)) = Returned ids /\
              In (String_of pid) ids.
Proof.
  intros st Hv r c. unfold r.
  rewrite (uploadCertificate_accepted w pid f cid st v Hv).
  unfold result, final. cbn [fst snd].
  split; [done|]. split; [|split; [done|]].
  - rewrite !listProductCertificates_unfold. cbn [fst mockStorage].
    eexists. split; [reflexivity|].
    rewrite lookup_insert_eq. cbn [certificates with_certificates].
    by rewrite existing_or_new_certificates.
  - rewrite listCertificates_unfold. eexists. split; [reflexivity|].
    apply listed_iff. eexists _, _. cbn [mockStorage].
    split; [apply lookup_insert_eq|].
    cbn [productId with_certificates].
    apply existing_or_new_productId, store_ok_run_all, store_ok_empty.
Qed.

Lemma upload_accepted_appends_witness :
  let ops := [Upload online (IdStr "p1") (Some "JVBERi0xLjQK") (IdStr iscc)] in
  let st := run_all ops initial in
  let pid := IdStr "p1" in
  let r := uploadCertificate online pid None (IdStr iscc) st in
  let c := certMeta_of online "p1" (JStr "2999-01-01") in
  result (verifyCertificate online (String_of (IdStr iscc)) st)
    = Returned (JStr "2999-01-01", true) /\
  result r = Returned true /\
  exists old,
    result (listProductCertificates pid st) = Returned old /\
    result (listProductCertificates pid (final r)) = Returned (old ++ [c])%list.
Proof.
  intros ops st pid r c.
  assert (Hv : result (verifyCertificate online (String_of (IdStr iscc)) st)
               = Returned (JStr "2999-01-01", true)) by (vm_compute; reflexivity).
  split; [exact Hv|].
  destruct (upload_accepted_appends ops online pid None (IdStr iscc)
              (JStr "2999-01-01") Hv) as (H1 & H2 & _).
  split; [exact H1|exact H2].
Defined.

(** X2. The store operations on one product leave the record of every other
    product as it was. *)
Theorem other_products_untouched (w : World) (pid : Ident) (f : File)
    (cid : Ident) (st : State) (k : string) :
  k <> String_of pid ->
  mockStorage (final (uploadCertificate w pid f cid st)) !! k
    = mockStorage st !! k /\
  mockStorage (final (deleteProductCertificate pid cid st)) !! k
    = mockStorage st !! k /\
  mockStorage (final (deleteCertificate pid st)) !! k = mockStorage st !! k.
Proof.
  intros Hk. split; [|split].
  - rewrite uploadCertificate_unfold.
    pose proof (verifyCertificate_storage w (String_of cid) st) as Hs.
    destruct (verifyCertificate w (String_of cid) st) as [[[expiry []]|e] st'];
      simpl in *; rewrite ?Hs; try done.
    by rewrite lookup_insert_ne.
  - rewrite deleteProductCertificate_unfold.
    destruct (mockStorage st !! String_of pid) as [existing|]; [|done].
    destruct (List.find _ _); [|done].
    simpl. destruct (0 <? _)%nat.
    + by rewrite lookup_insert_ne.
    + by rewrite lookup_delete_ne.
  - rewrite deleteCertificate_unfold. simpl. by rewrite lookup_delete_ne.
Qed.

Lemma other_products_untouched_witness :
  let st := run_all [Upload online (IdStr "p1") (Some "JVBERi0xLjQK") (IdStr iscc)]
                    initial in
  "p1" <> String_of (IdNum 7) /\
  mockStorage (final (uploadCertificate online (IdNum 7) None (IdStr iscc) st))
    !! "p1" = mockStorage st !! "p1" /\
  mockStorage (final (deleteProductCertificate (IdNum 7) (IdStr iscc) st)) !! "p1"
    = mockStorage st !! "p1" /\
  mockStorage (final (deleteCertificate (IdNum 7) st)) !! "p1"
    = mockStorage st !! "p1".
Proof.
  intros st.
  assert (H : "p1" <> String_of (IdNum 7)) by (vm_compute; discriminate).
  split; [exact H|].
  exact (other_products_untouched online (IdNum 7) None (IdStr iscc) st "p1" H).
Defined.

Lemma filter_length_unique (cid : Ident) (cs : list Certificate) (c : Certificate) :
  NoDup (id <$> cs) -> In c cs -> id c = String_of cid ->
  S (length (List.filter (fun x => negb (same_id cid x)) cs)) = length cs.
Proof.
  induction cs as [|x cs IH]; [done|].
  intros Hnd Hin Hid. apply NoDup_cons in Hnd as [Hx Hnd]. simpl.
  unfold same_id at 1. destruct (String.eqb (id x) (String_of cid)) eqn:E; simpl.
  - f_equal. apply String.eqb_eq in E.
    assert (Hnone : List.find (same_id cid) cs = None).
    { destruct (List.find (same_id cid) cs) as [y|] eqn:F; [|done].
      apply find_some in F as [Hy Hsame]. unfold same_id in Hsame.
      apply String.eqb_eq in Hsame. exfalso. apply Hx.
      rewrite E, <- Hsame. apply list_elem_of_fmap. exists y.
      split; [done|]. by apply list_elem_of_In. }
    by rewrite (find_none_filter cid cs Hnone).
  - f_equal. destruct Hin as [->|Hin].
    + apply String.eqb_neq in E. done.
    + by apply IH.
Qed.

(** X3. Deleting a certificate id from a product that also holds a
    certificate with another id returns [true], keeps the product, and leaves
    exactly the certificates with another id, in their order; every
    certificate carrying the deleted id is gone, and when the ids of the
    product are distinct the sequence is one shorter. *)
Theorem delete_keeps_the_others (pid cid : Ident) (st : State) (p : Product)
    (c c' : Certificate) :
  mockStorage st !! String_of pid = Some p ->
  In c (certificates p) -> id c = String_of cid ->
  In c' (certificates p) -> id c' <> String_of cid ->
  let r := deleteProductCertificate pid cid st in
  let rest := List.filter (fun x => negb (same_id cid x)) (certificates p) in
  result r = Returned true /\
  result (listProductCertificates pid (final r)) = Returned rest /\
  (forall x, In x rest <-> In x (certificates p) /\ id x <> String_of cid) /\
  (NoDup (id <$> certificates p) -> S (length rest) = length (certificates p)) /\
  netLog (final r) = netLog st.
Proof.
  intros Hp Hc Hid Hc' Hid' r rest.
  assert (Hfind : exists y, List.find (same_id cid) (certificates p) = Some y).
  { destruct (List.find (same_id cid) (certificates p)) as [y|] eqn:F; [by exists y|].
    exfalso. apply (find_none _ _ F) in Hc. unfold same_id in Hc.
    apply String.eqb_neq in Hc. done. }
  destruct Hfind as [y Hy].
  assert (Hin : forall x, In x rest <-> In x (certificates p) /\ id x <> String_of cid).
  { intros x. unfold rest. rewrite filter_In. unfold same_id.
    rewrite negb_true_iff, String.eqb_neq. done. }
  assert (Hlen : (0 <? length rest)%nat = true).
  { apply Nat.ltb_lt. assert (In c' rest) as Hr by (by apply Hin).
    destruct rest; [destruct Hr|simpl; lia]. }
  assert (Hr : r = (Returned true,
    mkState (<[String_of pid := with_certificates p rest]> (mockStorage st))
            (netLog st))).
  { unfold r. rewrite deleteProductCertificate_unfold, Hp, Hy. cbv zeta.
    fold rest. by rewrite Hlen. }
  rewrite Hr. unfold result, final. cbn [fst snd mockStorage netLog].
  split; [done|]. split; [|split; [exact Hin|split; [|done]]].
  - rewrite listProductCertificates_unfold. cbn [fst mockStorage].
    by rewrite lookup_insert_eq.
  - intros Hnd. by apply (filter_length_unique cid (certificates p) c).
Qed.

Lemma delete_keeps_the_others_witness :
  let c1 := mkCertificate "a-1" "mock://certificates/certificates/p1_a-1.pdf"
              "2026-11-03T09:00:00.000Z" true (JStr "2999-01-01") in
  let c2 := mkCertificate "b-2" "mock://certificates/certificates/p1_b-2.pdf"
              "2026-11-03T09:00:01.000Z" true (JStr "2999-01-01") in
  let p := mkProduct "p1" [c1; c2] in
  let st := mkState {[ "p1" := p ]} [] in
  let r := deleteProductCertificate (IdStr "p1") (IdStr "a-1") st in
  (mockStorage st !! String_of (IdStr "p1") = Some p /\
   (In c1 (certificates p) /\ id c1 = String_of (IdStr "a-1")) /\
   (In c2 (certificates p) /\ id c2 <> String_of (IdStr "a-1"))) /\
  result r = Returned true /\
  result (listProductCertificates (IdStr "p1") (final r)) = Returned [c2] /\
  (NoDup (id <$> certificates p) /\
   S (length (List.filter (fun x => negb (same_id (IdStr "a-1") x))
                          (certificates p))) = length (certificates p)).
Proof.
  intros c1 c2 p st r.
  assert (Hp : mockStorage st !! String_of (IdStr "p1") = Some p)
    by (vm_compute; reflexivity).
  assert (H1 : In c1 (certificates p)) by (left; reflexivity).
  assert (H2 : In c2 (certificates p)) by (right; left; reflexivity).
  assert (Hne : id c2 <> String_of (IdStr "a-1")) by (vm_compute; discriminate).
  split; [split; [exact Hp|split; [split; [exact H1|reflexivity]
                                  |split; [exact H2|exact Hne]]]|].
  assert (Hnd : NoDup (id <$> certificates p)).
  { apply NoDup_cons. split; [|apply NoDup_singleton].
    intros Hin. apply list_elem_of_singleton in Hin. discriminate Hin. }
  destruct (delete_keeps_the_others (IdStr "p1") (IdStr "a-1") st p c1 c2
              Hp H1 eq_refl H2 Hne) as (Hr & Hl & _ & Hlen & _).
  split; [exact Hr|]. split; [exact Hl|]. split; [exact Hnd|exact (Hlen Hnd)].
Defined.

(** X4. Deleting a product always returns [true]; afterwards the product has
    no certificates and is not stored, deleting it once more changes nothing,
    and deleting a product that was not stored leaves the store as it was.
    No request goes to the registry. *)
Theorem delete_product_always_succeeds (pid : Ident) (st : State) :
  let r := deleteCertificate pid st in
  result r = Returned true /\
  mockStorage (final r) !! String_of pid = None /\
  result (listProductCertificates pid (final r)) = Returned [] /\
  deleteCertificate pid (final r) = (Returned true, final r) /\
  (mockStorage st !! String_of pid = None -> final r = st) /\
  netLog (final r) = netLog st.
Proof.
  rewrite deleteCertificate_unfold. unfold result, final.
  cbn [fst snd mockStorage netLog].
  split; [done|]. split; [apply lookup_delete_eq|]. split; [|split; [|split]].
  - rewrite listProductCertificates_unfold. cbn [fst mockStorage].
    by rewrite lookup_delete_eq.
  - rewrite deleteCertificate_unfold. cbn [mockStorage netLog].
    by rewrite delete_delete_eq.
  - intros H. rewrite delete_id by done. apply state_eta.
  - done.
Qed.

Lemma delete_product_always_succeeds_witness :
  mockStorage initial !! String_of (IdStr "p1") = None /\
  final (deleteCertificate (IdStr "p1") initial) = initial.
Proof.
  split; [reflexivity|].
  exact (proj1 (proj2 (proj2 (proj2 (proj2
           (delete_product_always_succeeds (IdStr "p1") initial))))) eq_refl).
Defined.

Lemma listed_keys (m : gmap string Product) :
  store_ok m -> productId <$> (map_to_list m).*2 = (map_to_list m).*1.
Proof.
  intros Hm.
  assert (H : Forall (fun kp => productId kp.2 = kp.1) (map_to_list m)).
  { apply Forall_forall. intros [k p] Hkp. apply elem_of_map_to_list in Hkp.
    simpl. by apply (Hm k p). }
  revert H. generalize (map_to_list m). intros l H.
  induction H as [|[k p] l Hkp _ IH]; [done|].
  rewrite !fmap_cons. cbn [fst snd] in *. by rewrite Hkp, IH.
Qed.

Lemma list_once (ops : list Op) :
  exists ids,
    listCertificates (run_all ops initial) = (Returned ids, run_all ops initial) /\
    NoDup ids /\
    length ids = size (mockStorage (run_all ops initial)).
Proof.
  assert (Hok : store_ok (mockStorage (run_all ops initial))).
  { apply store_ok_run_all, store_ok_empty. }
  exists (productId <$> (map_to_list (mockStorage (run_all ops initial))).*2).
  split; [apply listCertificates_unfold|].
  rewrite (listed_keys _ Hok). split; [apply NoDup_fst_map_to_list|].
  by rewrite length_fmap, length_map_to_list.
Qed.

(** X5. After any history, [listCertificates] returns every stored product
    exactly once: the list has no duplicates, holds a product id exactly
    when the product has certificates to list, and is as long as the store
    has records. *)
Theorem list_has_each_product_once (ops : list Op) :
  let st := run_all ops initial in
  exists ids,
    listCertificates st = (Returned ids, st) /\
    NoDup ids /\
    (forall pid : Ident,
       In (String_of pid) ids <->
       exists c cs, result (listProductCertificates pid st) = Returned (c :: cs)) /\
    length ids = size (mockStorage st).
Proof.
  intros st.
  assert (Hok : store_ok (mockStorage st)).
  { apply store_ok_run_all, store_ok_empty. }
  exists (productId <$> (map_to_list (mockStorage st)).*2).
  split; [apply listCertificates_unfold|].
  rewrite (listed_keys _ Hok). split; [apply NoDup_fst_map_to_list|]. split.
  - intros pid. rewrite listProductCertificates_unfold. unfold result. cbn [fst].
    rewrite <- list_elem_of_In, list_elem_of_fmap. split.
    + intros ([k p] & Hk & Hkp). simpl in Hk. subst k.
      apply elem_of_map_to_list in Hkp. rewrite Hkp.
      destruct (Hok _ _ Hkp) as [_ Hne].
      destruct (certificates p) as [|c cs]; [done|]. by exists c, cs.
    + intros (c & cs & H).
      destruct (mockStorage st !! String_of pid) as [p|] eqn:E; [|done].
      exists (String_of pid, p). split; [done|]. by apply elem_of_map_to_list.
  - by rewrite length_fmap, length_map_to_list.
Qed.

(** X6. Only uploads talk to the registry, and an upload sends at most two
    requests: the page fetch and then, if the page came, one query whose
    parameter text is the fixed template with [String(certificateId)] and the
    nonce scraped from the page spliced in, unescaped.  Listing and deleting
    send nothing. *)
Theorem registry_traffic (w : World) (pid : Ident) (f : File) (cid : Ident)
    (st : State) :
  (exists calls,
     netLog (final (uploadCertificate w pid f cid st)) = (netLog st ++ calls)%list /\
     match page w with
     | None => calls = [GetPage]
     | Some text =>
         exists query,
           calls = [GetPage; query] /\
           parameters query =
             Some (params_head ++ String_of cid ++
                   "&search[regex]=false&wdtNonce=" ++ wdtNonce_of text ++
                   "&sRangeSeparator=|")
     end) /\
  netLog (final (listCertificates st)) = netLog st /\
  netLog (final (listProductCertificates pid st)) = netLog st /\
  netLog (final (deleteCertificate pid st)) = netLog st /\
  netLog (final (deleteProductCertificate pid cid st)) = netLog st.
Proof.
  split; [|split; [done|split; [|split; [done|]]]].
  - assert (Hlog : netLog (final (uploadCertificate w pid f cid st)) =
      (netLog st ++
       match page w with
       | Some text => [GetPage; PostQuery (String_of cid) (wdtNonce_of text)]
       | None => [GetPage]
       end)%list).
    { rewrite uploadCertificate_unfold.
      pose proof (verify_final w (String_of cid) st) as Hf.
      destruct (verifyCertificate w (String_of cid) st) as [[[expiry []]|e] st'];
        unfold final in *; cbn [snd netLog] in *; by rewrite Hf. }
    eexists. split; [exact Hlog|].
    destruct (page w) as [text|]; [|done].
    eexists. split; [reflexivity|]. reflexivity.
  - by rewrite listProductCertificates_unfold.
  - apply deleteProductCertificate_netLog.
Qed.

(** X7. After any history, an accepted upload followed by the deletion of the
    certificate id it issued restores the store, provided the id was not
    already in use in that product. *)
Theorem upload_then_delete_restores (ops : list Op) (w : World) (pid : Ident)
    (f : File) (cid : Ident) (v : JSON) :
  let st := run_all ops initial in
  let issued := IdStr (pretty (dateNow w) ++ "-" ++ randomTag w) in
  result (verifyCertificate w (String_of cid) st) = Returned (v, true) ->
  (forall p c, mockStorage st !! String_of pid = Some p ->
               In c (certificates p) -> id c <> String_of issued) ->
  let st1 := final (uploadCertificate w pid f cid st) in
  let r := deleteProductCertificate pid issued st1 in
  result r = Returned true /\ mockStorage (final r) = mockStorage st.
Proof.
  intros st issued Hv Hfresh st1 r.
  assert (Hok : store_ok (mockStorage st)).
  { apply store_ok_run_all, store_ok_empty. }
  unfold r, st1. rewrite (uploadCertificate_accepted w pid f cid st v Hv).
  unfold result, final. cbn [snd].
  rewrite deleteProductCertificate_unfold. cbn [mockStorage netLog].
  rewrite lookup_insert_eq. cbn [certificates with_certificates].
  set (old := certificates (existing_or_new (mockStorage st) (String_of pid))).
  set (c := certMeta_of w (String_of pid) v).
  assert (Hold : List.filter (fun x => negb (same_id issued x)) old = old).
  { apply find_none_filter.
    destruct (List.find (same_id issued) old) as [y|] eqn:F; [|done].
    apply find_some in F as [Hy Hsame]. unfold same_id in Hsame.
    apply String.eqb_eq in Hsame. exfalso.
    unfold old in Hy. rewrite existing_or_new_certificates in Hy.
    destruct (mockStorage st !! String_of pid) as [p|] eqn:E; [|done].
    by apply (Hfresh p y). }
  assert (Hc : same_id issued c = true).
  { unfold same_id, c, issued. simpl. apply String.eqb_refl. }
  assert (Hfind : exists y, List.find (same_id issued) (old ++ [c]) = Some y).
  { destruct (List.find (same_id issued) (old ++ [c])) as [y|] eqn:F; [by exists y|].
    assert (In c (old ++ [c])) as Hin by (apply in_or_app; right; by left).
    apply (find_none _ _ F) in Hin. congruence. }
  destruct Hfind as [y ->]. cbv zeta.
  rewrite List.filter_app, Hold. cbn [List.filter]. rewrite Hc. cbn [negb].
  rewrite app_nil_r. cbn [fst snd mockStorage].
  split; [done|].
  unfold old. rewrite existing_or_new_certificates.
  destruct (mockStorage st !! String_of pid) as [p|] eqn:E.
  - destruct (Hok _ _ E) as [Hpid Hne].
    destruct (certificates p) as [|c0 cs] eqn:Ecs; [done|]. cbn [length Nat.ltb Nat.leb].
    rewrite insert_insert_eq. apply insert_id.
    unfold existing_or_new. rewrite E. cbn [default from_option].
    unfold with_certificates. cbn [productId]. rewrite <- Ecs. by destruct p.
  - cbn [length Nat.ltb Nat.leb]. rewrite delete_insert_eq. by apply delete_id.
Qed.

Lemma upload_then_delete_restores_witness :
  let ops := [Upload online (IdStr "p1") (Some "JVBERi0xLjQK") (IdStr iscc)] in
  let later := mkWorld (Some nonce_page) (registry iscc) (mkDate 2026 11 3)
                       1762160460000 "zz91qa" "2026-11-03T09:01:00.000Z" in
  let st := run_all ops initial in
  let issued := IdStr (pretty (dateNow later) ++ "-" ++ randomTag later) in
  let st1 := final (uploadCertificate later (IdStr "p1") None (IdStr iscc) st) in
  let r := deleteProductCertificate (IdStr "p1") issued st1 in
  result (verifyCertificate later (String_of (IdStr iscc)) st)
    = Returned (JStr "2999-01-01", true) /\
  (forall p c, mockStorage st !! String_of (IdStr "p1") = Some p ->
               In c (certificates p) -> id c <> String_of issued) /\
  result r = Returned true /\ mockStorage (final r) = mockStorage st.
Proof.
  intros ops later st issued st1 r.
  assert (Hv : result (verifyCertificate later (String_of (IdStr iscc)) st)
               = Returned (JStr "2999-01-01", true)) by (vm_compute; reflexivity).
  assert (Hfresh : forall p c, mockStorage st !! String_of (IdStr "p1") = Some p ->
                     In c (certificates p) -> id c <> String_of issued).
  { intros p c Hp Hc.
    assert (Hst : mockStorage st !! String_of (IdStr "p1")
                  = Some (mkProduct "p1" [certMeta_of online "p1" (JStr "2999-01-01")]))
      by (vm_compute; reflexivity).
    rewrite Hst in Hp. injection Hp as <-.
    destruct Hc as [<-|[]]. vm_compute. discriminate. }
  split; [exact Hv|]. split; [exact Hfresh|].
  exact (upload_then_delete_restores ops later (IdStr "p1") None (IdStr iscc)
           (JStr "2999-01-01") Hv Hfresh).
Defined.

Lemma paths_ok_delete (m : gmap string Product) (k : string) :
  paths_ok m -> paths_ok (delete k m).
Proof.
  intros Hm k' p c H. apply lookup_delete_Some in H as [_ H]. by apply (Hm k').
Qed.

Lemma paths_ok_insert (m : gmap string Product) (k : string) (p : Product) :
  paths_ok m ->
  (forall c, In c (certificates p) ->
     bucketPath c =
       "mock://certificates/certificates/" ++ k ++ "_" ++ id c ++ ".pdf") ->
  paths_ok (<[k := p]> m).
Proof.
  intros Hm Hp k' p' c H. apply lookup_insert_Some in H as [[<- <-]|[_ H]].
  - apply Hp.
  - by apply (Hm k').
Qed.

Lemma paths_ok_run (op : Op) (st : State) :
  paths_ok (mockStorage st) -> paths_ok (mockStorage (run op st)).
Proof.
  intros Hm. destruct op as [w pid f cid| |pid|pid|pid cid]; cbn [run].
  - rewrite uploadCertificate_unfold.
    pose proof (verifyCertificate_storage w (String_of cid) st) as Hs.
    destruct (verifyCertificate w (String_of cid) st) as [[[expiry []]|e] st'];
      simpl in *; rewrite Hs; try done.
    apply paths_ok_insert; [done|].
    simpl. intros c Hc. apply in_app_or in Hc as [Hc|[<-|[]]]; [|done].
    rewrite existing_or_new_certificates in Hc.
    destruct (mockStorage st !! String_of pid) as [p|] eqn:E; [|done].
    by apply (Hm _ _ _ E).
  - done.
  - by rewrite listProductCertificates_unfold.
  - rewrite deleteCertificate_unfold. by apply paths_ok_delete.
  - rewrite deleteProductCertificate_unfold.
    destruct (mockStorage st !! String_of pid) as [existing|] eqn:E; [|done].
    destruct (List.find _ _); [|done].
    simpl. destruct (0 <? _)%nat.
    + apply paths_ok_insert; [done|].
      simpl. intros c' Hc. apply filter_In in Hc as [Hc _]. by apply (Hm _ _ _ E).
    + by apply paths_ok_delete.
Qed.

Lemma paths_ok_run_all (ops : list Op) (st : State) :
  paths_ok (mockStorage st) -> paths_ok (mockStorage (run_all ops st)).
Proof.
  revert st. induction ops as [|op ops IH]; intros st Hm; simpl; [done|].
  apply IH. by apply paths_ok_run.
Qed.

(** X8. After any history, every stored certificate is marked verified and
    points at the object whose name is derived from the product id it is
    stored under and from its own id. *)
Theorem stored_records_shape (ops : list Op) (k : string) (p : Product)
    (c : Certificate) :
  mockStorage (run_all ops initial) !! k = Some p ->
  In c (certificates p) ->
  verified c = true /\
  bucketPath c =
    "mock://certificates/certificates/" ++ k ++ "_" ++ id c ++ ".pdf".
Proof.
  intros Hp Hc. split.
  - by apply (all_verified_run_all ops k p c).
  - assert (H : paths_ok (mockStorage (run_all ops initial))).
    { apply paths_ok_run_all. intros k' p' c' Hk.
      unfold initial in Hk. cbn [mockStorage] in Hk.
      by rewrite lookup_empty in Hk. }
    by apply (H k p c).
Qed.

Lemma stored_records_shape_witness :
  let ops := [Upload online (IdNum 42) (Some "JVBERi0xLjQK") (IdStr iscc)] in
  let c := certMeta_of online "42" (JStr "2999-01-01") in
  let p := mkProduct "42" [c] in
  (mockStorage (run_all ops initial) !! "42" = Some p /\ In c (certificates p)) /\
  verified c = true /\
  bucketPath c =
    "mock://certificates/certificates/" ++ "42" ++ "_" ++ id c ++ ".pdf".
Proof.
  intros ops c p.
  assert (Hp : mockStorage (run_all ops initial) !! "42" = Some p)
    by (vm_compute; reflexivity).
  assert (Hc : In c (certificates p)) by (left; reflexivity).
  split; [split; [exact Hp|exact Hc]|].
  exact (stored_records_shape ops "42" p c Hp Hc).
Defined.

(** * Further properties of the gateway *)

Lemma upload_route_unfold (w : World) (body : option UploadBody) (st : State) :
  upload_route w body st =
  let internal :=
    json_response 500 (JObj [("success", JBool false);
                             ("error", JStr "Internal error")]) in
  match body with
  | None => (Returned internal, st)
  | Some b =>
      if falsy_ident (body_productId b) || falsy_field (body_file b)
           || falsy_ident (body_certificateId b)
      then (Returned (json_response 400
                        (JObj [("success", JBool false);
                               ("message",
                                JStr "Missing productId, file or certificateId")])),
            st)
      else
        match Buffer_from (body_file b) with
        | None => (Returned internal, st)
        | Some buffer =>
            match uploadCertificate w (body_productId b) buffer
                    (body_certificateId b) st with
            | (Returned success, st') =>
                (Returned (json_response (if success then 200 else 400)
                             (JObj [("success", JBool success)])), st')
            | (Thrown _, st') => (Returned internal, st')
            end
        end
  end.
Proof.
  unfold upload_route, try_catch, bind, throw, ret, eval.
  destruct body as [b|]; [|done]. cbv beta iota zeta.
  destruct (_ || _ || _); [done|].
  destruct (Buffer_from (body_file b)) as [buffer|]; [|done].
  unfold ret.
  by destruct (uploadCertificate _ _ _ _ _) as [[success|e] st'].
Qed.




(** X11. A request whose method is neither [POST] nor [DELETE] changes
    nothing: neither the store nor the log of registry requests. *)
Theorem other_methods_read_only (w : World) (method pathname : string)
    (body : option UploadBody) (st : State) :
  method <> "POST" -> method <> "DELETE" ->
  final (handler w method pathname body st) = st.
Proof.
  intros Hpost Hdelete. unfold handler, try_catch.
  rewrite (eqb_other method "POST" Hpost), (eqb_other method "DELETE" Hdelete).
  rewrite !andb_false_r.
  destruct (String.eqb pathname "/healthz" && String.eqb method "GET"); [done|].
  destruct (String.eqb pathname "/certificates" && String.eqb method "GET"); [done|].
  destruct (js_startsWith pathname "/certificates/" && String.eqb method "GET").
  { destruct (falsy_segment _); [done|].
    unfold bind. by rewrite listProductCertificates_unfold. }
  by destruct (String.eqb method "GET" && String.eqb pathname "/").
Qed.

Lemma other_methods_read_only_witness :
  let st := run_all [Upload online (IdStr "p1") (Some "JVBERi0xLjQK") (IdStr iscc)]
                    initial in
  ("GET" <> "POST" /\ "GET" <> "DELETE") /\
  final (handler online "GET" "/certificates/p1" None st) = st.
Proof.
  intros st.
  assert (H1 : "GET" <> "POST") by discriminate.
  assert (H2 : "GET" <> "DELETE") by discriminate.
  split; [split; [exact H1|exact H2]|].
  exact (other_methods_read_only online "GET" "/certificates/p1" None st H1 H2).
Defined.

(** X12. [DELETE /certificates/:productId/:certId] runs the store's
    single-certificate delete on the two path segments and answers 200 with
    [success: true] when it returns [true], 400 with [success: false] when it
    returns [false]; without a certificate segment the answer is 400 and
    nothing is deleted. *)
Theorem delete_route (w : World) (pid cid : string) (body : option UploadBody)
    (st : State) :
  pid <> EmptyString -> slash_free pid = true ->
  (cid <> EmptyString -> slash_free cid = true ->
   exists success,
     deleteProductCertificate (IdStr pid) (IdStr cid) st
       = (Returned success,
          final (deleteProductCertificate (IdStr pid) (IdStr cid) st)) /\
     handler w "DELETE" ("/certificates/" ++ pid ++ "/" ++ cid) body st =
       (Returned (json_response (if success then 200 else 400)
                    (JObj [("success", JBool success)])),
        final (deleteProductCertificate (IdStr pid) (IdStr cid) st))) /\
  handler w "DELETE" ("/certificates/" ++ pid) body st =
    (Returned (json_response 400
                 (JObj [("success", JBool false);
                        ("message", JStr "Missing productId or certId")])), st).
Proof.
  intros Hpid Hseg.
  assert (Hroute : forall rest,
    handler w "DELETE" ("/certificates/" ++ rest) body st =
    try_catch
      (let segments := js_split "/" ("/certificates/" ++ rest) in
       let productId := segments !! 2%nat in
       let certId := segments !! 3%nat in
       if falsy_segment productId || falsy_segment certId then
         ret (json_response 400
                (JObj [("success", JBool false);
                       ("message", JStr "Missing productId or certId")]))
       else
         let! success :=
           deleteProductCertificate (segment productId) (segment certId) in
         ret (json_response (if success then 200 else 400)
                (JObj [("success", JBool success)])))
      (fun _ => ret (json_response 500 (JObj [("error", JStr "Internal error")])))
      st).
  { intros rest. unfold handler.
    change (String.eqb "DELETE" "GET") with false.
    change (String.eqb "DELETE" "POST") with false.
    change (String.eqb "DELETE" "DELETE") with true.
    rewrite !andb_false_r, andb_true_r.
    change (js_startsWith ("/certificates/" ++ rest) "/certificates/")
      with (String.prefix EmptyString rest).
    assert (Hpre : String.prefix EmptyString rest = true) by (by destruct rest).
    by rewrite Hpre. }
  assert (Hsplit : forall rest,
    js_split "/" ("/certificates/" ++ rest)
    = EmptyString :: "certificates" :: js_split "/" rest).
  { intros rest. change ("/certificates/" ++ rest) with
      (EmptyString ++ String "/" ("certificates" ++ String "/" rest)).
    rewrite js_split_cons by done.
    by rewrite (js_split_cons "certificates" rest). }
  split.
  - intros Hcid Hcseg.
    destruct (deleteProductCertificate_returns (IdStr pid) (IdStr cid) st)
      as [success Hs].
    exists success. split.
    + destruct (deleteProductCertificate (IdStr pid) (IdStr cid) st) as [o st'].
      simpl in *. by subst.
    + change ("/certificates/" ++ pid ++ "/" ++ cid)
        with ("/certificates/" ++ (pid ++ String "/" cid)).
      rewrite Hroute, Hsplit, (js_split_cons pid cid Hseg),
        (js_split_segment cid Hcseg).
      unfold try_catch. cbv zeta.
      change ((EmptyString :: "certificates" :: pid :: [cid]) !! 2%nat)
        with (Some pid).
      change ((EmptyString :: "certificates" :: pid :: [cid]) !! 3%nat)
        with (Some cid).
      rewrite (falsy_segment_nonempty pid Hpid), (falsy_segment_nonempty cid Hcid).
      cbn [orb]. unfold bind, segment.
      change (default EmptyString (Some pid)) with pid.
      change (default EmptyString (Some cid)) with cid.
      destruct (deleteProductCertificate (IdStr pid) (IdStr cid) st) as [o st'].
      simpl in Hs. subst o. done.
  - rewrite Hroute, Hsplit, (js_split_segment pid Hseg).
    unfold try_catch. cbv zeta.
    change ((EmptyString :: "certificates" :: [pid]) !! 3%nat) with (@None string).
    change (falsy_segment None) with true. by rewrite orb_true_r.
Qed.

Lemma delete_route_witness :
  let st := run_all [Upload online (IdStr "p1") (Some "JVBERi0xLjQK") (IdStr iscc)]
                    initial in
  let cid := "1762160400000-k3x9ab" in
  (("p1" <> EmptyString /\ slash_free "p1" = true) /\
   (cid <> EmptyString /\ slash_free cid = true)) /\
  exists success,
    deleteProductCertificate (IdStr "p1") (IdStr cid) st
      = (Returned success,
         final (deleteProductCertificate (IdStr "p1") (IdStr cid) st)) /\
    handler online "DELETE" ("/certificates/" ++ "p1" ++ "/" ++ cid) None st =
      (Returned (json_response (if success then 200 else 400)
                   (JObj [("success", JBool success)])),
       final (deleteProductCertificate (IdStr "p1") (IdStr cid) st)).
Proof.
  intros st cid.
  assert (H1 : "p1" <> EmptyString) by discriminate.
  assert (H2 : cid <> EmptyString) by discriminate.
  split; [split; [split; [exact H1|reflexivity]|split; [exact H2|reflexivity]]|].
  exact (proj1 (delete_route online "p1" cid None st H1 eq_refl) H2 eq_refl).
Defined.

(** * Further properties of the dispatcher and of the channel adapter *)

Lemma handleRequest_cases (w : World) (requestType : string)
    (pid : Ident) (f : File) (cid : Ident) (st : State) :
  let r := handleRequest w requestType pid f cid st in
  (forall envelope, result r = Returned (Some envelope) ->
     In requestType recognized /\
     js_prop "operationType" envelope = Some (JStr (requestType ++ "Response"))) /\
  (result r = Returned None -> ~ In requestType recognized) /\
  (forall e, result r = Thrown e -> requestType = "upload") /\
  (requestType = "list" \/ requestType = "listProductCertificates" ->
   final r = st).
Proof.
  unfold handleRequest, recognized.
  destruct (String.eqb requestType "upload") eqn:E1.
  { apply String.eqb_eq in E1 as ->. unfold bind.
    destruct (uploadCertificate w pid f cid st) as [[b|e] st']; simpl.
    - split; [|split; [done|split; [done|]]].
      + intros envelope [= <-]. simpl. tauto.
      + intros [H|H]; discriminate H.
    - split; [done|]. split; [done|]. split; [done|].
      intros [H|H]; discriminate H. }
  destruct (String.eqb requestType "delete") eqn:E2.
  { apply String.eqb_eq in E2 as ->. unfold bind.
    destruct (deleteProductCertificate_returns pid cid st) as [b Hb].
    destruct (deleteProductCertificate pid cid st) as [[b'|e] st'];
      simpl in *; [|done].
    split; [|split; [done|split; [done|]]].
    - intros envelope [= <-]. simpl. tauto.
    - intros [H|H]; discriminate H. }
  destruct (String.eqb requestType "deleteProductCertificate") eqn:E3.
  { apply String.eqb_eq in E3 as ->. unfold bind.
    destruct (deleteProductCertificate_returns pid cid st) as [b Hb].
    destruct (deleteProductCertificate pid cid st) as [[b'|e] st'];
      simpl in *; [|done].
    split; [|split; [done|split; [done|]]].
    - intros envelope [= <-]. simpl. tauto.
    - intros [H|H]; discriminate H. }
  destruct (String.eqb requestType "list") eqn:E4.
  { apply String.eqb_eq in E4 as ->. unfold bind.
    rewrite listCertificates_unfold. simpl.
    split; [|done]. intros envelope [= <-]. simpl. tauto. }
  destruct (String.eqb requestType "listProductCertificates") eqn:E5.
  { apply String.eqb_eq in E5 as ->. unfold bind.
    rewrite listProductCertificates_unfold. simpl.
    split; [|done]. intros envelope [= <-]. simpl. tauto. }
  apply String.eqb_neq in E1, E2, E3, E4, E5. simpl.
  split; [done|]. split; [|split; [done|]].
  - intros _ H. simpl in H. intuition congruence.
  - intros [H|H]; congruence.
Qed.

(** X13. The dispatcher names its answer after the request: a response
    envelope is produced only for a recognised operation and its
    [operationType] is the request's followed by [Response].  No answer at
    all means the operation was not recognised, and only [upload] can
    raise.  The two list operations leave the state as it was. *)
Theorem response_named_after_request (w : World) (requestType : string)
    (pid : Ident) (f : File) (cid : Ident) (st : State) :
  let r := handleRequest w requestType pid f cid st in
  (forall envelope, result r = Returned (Some envelope) ->
     In requestType recognized /\
     js_prop "operationType" envelope = Some (JStr (requestType ++ "Response"))) /\
  (result r = Returned None -> ~ In requestType recognized) /\
  (forall e, result r = Thrown e -> requestType = "upload") /\
  (requestType = "list" \/ requestType = "listProductCertificates" ->
   final r = st).
Proof. exact (handleRequest_cases w requestType pid f cid st). Qed.

Lemma response_named_after_request_witness :
  let r := handleRequest online "listProductCertificates" (IdStr "p1") None
             (IdStr EmptyString) initial in
  let envelope :=
    JObj [("operationType", JStr "listProductCertificatesResponse");
          ("productId", JStr "p1"); ("certificates", JArr []);
          ("total", JNum 0)] in
  result r = Returned (Some envelope) /\
  (In "listProductCertificates" recognized /\
   js_prop "operationType" envelope
     = Some (JStr ("listProductCertificates" ++ "Response"))) /\
  final r = initial.
Proof.
  intros r envelope.
  assert (Hr : result r = Returned (Some envelope)) by reflexivity.
  destruct (response_named_after_request online "listProductCertificates"
              (IdStr "p1") None (IdStr EmptyString) initial)
    as (Hname & _ & _ & Hsame).
  split; [exact Hr|]. split; [exact (Hname envelope Hr)|].
  exact (Hsame (or_intror eq_refl)).
Defined.

Lemma unrecognized_dispatch (w : World) (requestType : string)
    (pid : Ident) (f : File) (cid : Ident) (st : State) :
  ~ In requestType recognized ->
  handleRequest w requestType pid f cid st = (Returned None, st).
Proof.
  intros H. unfold recognized in H. simpl in H.
  unfold handleRequest.
  rewrite !eqb_other by (intros ->; tauto). done.
Qed.

Lemma onMessage_unfold (w : World) (message : Message) (ps : Process) :
  onMessage w message ps =
  let failed := fun st acks =>
    (Returned tt,
     mkProcess st (channel ps ++ acks ++ [Publish failedResponse None])) in
  match msg_payload message with
  | None => failed (service ps) []
  | Some payload =>
      match env_data payload with
      | None => failed (service ps) []
      | Some data =>
          match dispatch w payload data (service ps) with
          | (Returned (Some envelope), st') =>
              (Returned tt,
               mkProcess st'
                 (channel ps ++
                  [Ack;
                   Publish envelope
                     (Some (default "unknown"
                              (or_else (or_else (attr_correlationId message)
                                                (env_correlationId payload))
                                       None)))]))
          | (Returned None, st') => failed st' [Ack]
          | (Thrown _, st') => failed st' []
          end
      end
  end.
Proof.
  unfold onMessage, try_catchP, bindP, retP, throwP, act, lift.
  destruct ps as [st ch]. cbn [service channel].
  destruct (msg_payload message) as [payload|]; [|done].
  destruct (env_data payload) as [data|]; [|done].
  cbv beta iota. cbn [service channel].
  destruct (dispatch w payload data st) as [[[envelope|]|e] st'];
    cbv beta iota; cbn [service channel]; by rewrite <- ?app_assoc.
Qed.


(** X15. The listener acknowledges a message exactly when the dispatcher has
    returned for it: a message that does not parse, an envelope without
    [data], or a request during which the dispatcher raises is answered but
    never acknowledged. *)
Theorem acknowledged_iff_dispatched (w : World) (message : Message)
    (ps : Process) :
  exists actions,
    channel (snd (onMessage w message ps)) = (channel ps ++ actions)%list /\
    (In Ack actions <->
     exists payload data answer,
       msg_payload message = Some payload /\
       env_data payload = Some data /\
       result (dispatch w payload data (service ps)) = Returned answer).
Proof.
  rewrite onMessage_unfold. cbv zeta.
  destruct (msg_payload message) as [payload|] eqn:Ep.
  - destruct (env_data payload) as [data|] eqn:Ed.
    + destruct (dispatch w payload data (service ps)) as [[[envelope|]|e] st'] eqn:Hd;
        eexists; (split; [reflexivity|]); simpl.
      * split; [|intros _; by left]. intros _.
        exists payload, data, (Some envelope). by rewrite Hd.
      * split; [|intros _; by left]. intros _.
        exists payload, data, None. by rewrite Hd.
      * split; [intros [H|[]]; discriminate H|].
        intros (payload' & data' & answer & Hp' & Hd' & H).
        injection Hp' as <-. rewrite Ed in Hd'. injection Hd' as <-.
        rewrite Hd in H. discriminate H.
    + eexists. split; [reflexivity|]. simpl.
      split; [intros [H|[]]; discriminate H|].
      intros (payload' & data' & answer & Hp' & Hd' & _).
      injection Hp' as <-. congruence.
  - eexists. split; [reflexivity|]. simpl.
    split; [intros [H|[]]; discriminate H|].
    intros (payload' & data' & answer & Hp' & _). discriminate Hp'.
Qed.

(** X16. How requests fail on the channel.  A message that does not parse, or
    whose envelope has no [data], gets the failure response and leaves the
    service untouched.  A request with a missing or unrecognised operation
    type is acknowledged and then gets the failure response, the service
    untouched.  An upload during which the registry page cannot be fetched
    gets the failure response, is not acknowledged, and stores nothing. *)
Theorem failures_on_the_channel (w : World) (message : Message) (ps : Process) :
  (msg_payload message = None \/
   (exists payload, msg_payload message = Some payload /\ env_data payload = None) ->
   onMessage w message ps =
     (Returned tt,
      mkProcess (service ps) (channel ps ++ [Publish failedResponse None]))) /\
  (forall payload data,
     msg_payload message = Some payload -> env_data payload = Some data ->
     (env_operationType payload = None \/
      exists requestType, env_operationType payload = Some requestType /\
                          ~ In requestType recognized) ->
     onMessage w message ps =
       (Returned tt,
        mkProcess (service ps)
                  (channel ps ++ [Ack; Publish failedResponse None]))) /\
  (forall payload data,
     msg_payload message = Some payload -> env_data payload = Some data ->
     env_operationType payload = Some "upload" -> page w = None ->
     exists st',
       onMessage w message ps =
         (Returned tt,
          mkProcess st' (channel ps ++ [Publish failedResponse None])) /\
       mockStorage st' = mockStorage (service ps)).
Proof.
  split; [|split].
  - intros [H|(payload & H & Hdata)]; rewrite onMessage_unfold, H; [done|].
    by rewrite Hdata.
  - intros payload data Hp Hd Hop. rewrite onMessage_unfold, Hp, Hd.
    unfold dispatch. destruct Hop as [->|(requestType & -> & Hnot)]; [done|].
    by rewrite (unrecognized_dispatch w requestType _ _ _ _ Hnot).
  - intros payload data Hp Hd Hop Hpage. rewrite onMessage_unfold, Hp, Hd.
    unfold dispatch. rewrite Hop. unfold handleRequest.
    change (String.eqb "upload" "upload") with true. cbv iota. unfold bind.
    set (productId := default (IdStr EmptyString) (data_productId data)).
    set (certificateId := default (IdStr EmptyString) (data_certificateId data)).
    pose proof (uploadCertificate_rejected w productId (data_file data)
                  certificateId (service ps)) as Hrej.
    rewrite uploadCertificate_unfold in *.
    rewrite verifyCertificate_unfold in *. rewrite Hpage in *.
    simpl in *. eexists. split; [reflexivity|]. simpl. by apply Hrej.
Qed.

Lemma failures_on_the_channel_witness :
  let ps := mkProcess initial [] in
  let data := mkRequestData (Some (IdStr "p1")) (Some "JVBERi0xLjQK")
                            (Some (IdStr iscc)) in
  let unknown := mkMessage (Some "req-7")
                   (Some (mkEnvelope (Some "deleteAll") None (Some data))) in
  let upload := mkMessage (Some "req-8")
                  (Some (mkEnvelope (Some "upload") None (Some data))) in
  onMessage online (mkMessage (Some "req-6") None) ps =
    (Returned tt, mkProcess initial [Publish failedResponse None]) /\
  (~ In "deleteAll" recognized /\
   onMessage online unknown ps =
     (Returned tt, mkProcess initial [Ack; Publish failedResponse None])) /\
  (page offline = None /\
   exists st',
     onMessage offline upload ps =
       (Returned tt, mkProcess st' [Publish failedResponse None]) /\
     mockStorage st' = mockStorage initial).
Proof.
  intros ps data unknown upload.
  assert (Hnot : ~ In "deleteAll" recognized).
  { intros Hin. repeat destruct Hin as [Hin|Hin]; try discriminate Hin. exact Hin. }
  split; [|split].
  - exact (proj1 (failures_on_the_channel online (mkMessage (Some "req-6") None) ps)
             (or_introl eq_refl)).
  - split; [exact Hnot|].
    exact (proj1 (proj2 (failures_on_the_channel online unknown ps)) _ data
             eq_refl eq_refl
             (or_intror (ex_intro _ "deleteAll" (conj eq_refl Hnot)))).
  - split; [reflexivity|].
    exact (proj2 (proj2 (failures_on_the_channel offline upload ps)) _ data
             eq_refl eq_refl eq_refl eq_refl).
Defined.

(** X17. When the dispatcher produces a response, the listener acknowledges
    the message and then publishes that response with a correlation id: the
    message attribute if it is a non-empty string, else the envelope's
    [correlationId] if that is one, else the word [unknown]. *)
Theorem correlation_carried (w : World) (message : Message) (ps : Process)
    (payload : Envelope) (data : RequestData) (envelope : JSON) (st' : State) :
  msg_payload message = Some payload ->
  env_data payload = Some data ->
  dispatch w payload data (service ps) = (Returned (Some envelope), st') ->
  exists correlationId,
    onMessage w message ps =
      (Returned tt,
       mkProcess st' (channel ps ++ [Ack; Publish envelope (Some correlationId)])) /\
    (forall a, attr_correlationId message = Some a -> a <> EmptyString ->
               correlationId = a) /\
    (attr_correlationId message = None \/
     attr_correlationId message = Some EmptyString ->
     (forall b, env_correlationId payload = Some b -> b <> EmptyString ->
                correlationId = b) /\
     (env_correlationId payload = None \/
      env_correlationId payload = Some EmptyString ->
      correlationId = "unknown")).
Proof.
  intros Hp Hd Hr. rewrite onMessage_unfold, Hp, Hd, Hr.
  eexists. split; [reflexivity|]. split.
  - intros a -> Ha. unfold or_else. apply String.eqb_neq in Ha. by rewrite !Ha.
  - intros Hattr.
    assert (Hor : or_else (attr_correlationId message) (env_correlationId payload)
                  = env_correlationId payload).
    { by destruct Hattr as [->| ->]. }
    rewrite Hor. split.
    + intros b -> Hb. unfold or_else. apply String.eqb_neq in Hb. by rewrite Hb.
    + by intros [->| ->].
Qed.

Lemma correlation_carried_witness :
  let ps := mkProcess initial [] in
  let data := mkRequestData None None None in
  let payload := mkEnvelope (Some "list") (Some "from-body") (Some data) in
  let message := mkMessage (Some EmptyString) (Some payload) in
  let envelope := JObj [("operationType", JStr "listResponse");
                        ("productIds", JArr []); ("total", JNum 0)] in
  dispatch online payload data (service ps) = (Returned (Some envelope), initial) /\
  onMessage online message ps =
    (Returned tt, mkProcess initial [Ack; Publish envelope (Some "from-body")]).
Proof.
  intros ps data payload message envelope.
  assert (Hd : dispatch online payload data (service ps)
               = (Returned (Some envelope), initial)) by reflexivity.
  split; [exact Hd|].
  destruct (correlation_carried online message ps payload data envelope initial
              eq_refl eq_refl Hd) as (c & Hm & _ & Hbody).
  destruct (Hbody (or_intror eq_refl)) as [Hb _].
  assert (Hc : c = "from-body").
  { apply Hb; [reflexivity|discriminate]. }
  rewrite Hm, Hc. reflexivity.
Defined.

Lemma ids_ok_run (op : Op) (st : State) :
  ids_ok (mockStorage st) -> ids_ok (mockStorage (run op st)).
Proof.
  intros Hm. destruct op as [w pid f cid| |pid|pid|pid cid]; cbn [run].
  - rewrite uploadCertificate_unfold.
    pose proof (verifyCertificate_storage w (String_of cid) st) as Hs.
    destruct (verifyCertificate w (String_of cid) st) as [[[expiry []]|e] st'];
      simpl in *; rewrite Hs; try done.
    intros k p c Hk Hc. apply lookup_insert_Some in Hk as [[<- <-]|[_ Hk]];
      [|by apply (Hm k p c)].
    simpl in Hc. apply in_app_or in Hc as [Hc|[<-|[]]].
    + rewrite existing_or_new_certificates in Hc.
      destruct (mockStorage st !! String_of pid) as [p|] eqn:E; [|done].
      by apply (Hm _ _ _ E).
    + simpl. by destruct (pretty (dateNow w)).
  - done.
  - by rewrite listProductCertificates_unfold.
  - rewrite deleteCertificate_unfold. intros k p c Hk.
    unfold final in Hk. cbn [snd mockStorage] in Hk.
    apply lookup_delete_Some in Hk as [_ Hk]. by apply (Hm k p c).
  - rewrite deleteProductCertificate_unfold.
    destruct (mockStorage st !! String_of pid) as [existing|] eqn:E; [|done].
    destruct (List.find _ _); [|done].
    simpl. destruct (0 <? _)%nat; intros k p c' Hk.
    + apply lookup_insert_Some in Hk as [[<- <-]|[_ Hk]]; [|by apply (Hm k p c')].
      simpl. intros Hc. apply filter_In in Hc as [Hc _]. by apply (Hm _ _ _ E).
    + apply lookup_delete_Some in Hk as [_ Hk]. by apply (Hm k p c').
Qed.

Lemma ids_ok_run_all (ops : list Op) (st : State) :
  ids_ok (mockStorage st) -> ids_ok (mockStorage (run_all ops st)).
Proof.
  revert st. induction ops as [|op ops IH]; intros st Hm; simpl; [done|].
  apply IH. by apply ids_ok_run.
Qed.

(** X18. After any history, a [delete] request that names no certificate (the
    dispatcher's default [certificateId] is the empty string, and this is how
    the bundled client still calls the old operation) deletes nothing and is
    answered with [status: false]: no stored certificate has an empty id. *)
Theorem delete_without_certificate_id (ops : list Op) (w : World) (pid : Ident)
    (f : File) :
  let st := run_all ops initial in
  handleRequest w "delete" pid f (IdStr EmptyString) st =
    (Returned (Some (JObj [("operationType", JStr "deleteResponse");
                           ("status", JBool false)])), st).
Proof.
  intros st.
  assert (Hids : ids_ok (mockStorage st)).
  { apply ids_ok_run_all. intros k p c Hk. unfold initial in Hk.
    cbn [mockStorage] in Hk. by rewrite lookup_empty in Hk. }
  unfold handleRequest. change (String.eqb "delete" "upload") with false.
  change (String.eqb "delete" "delete") with true. cbv iota.
  unfold bind. rewrite deleteProductCertificate_unfold.
  destruct (mockStorage st !! String_of pid) as [p|] eqn:E; [|done].
  destruct (List.find (same_id (IdStr EmptyString)) (certificates p)) as [c|] eqn:F;
    [|done].
  apply find_some in F as [Hc Hsame]. unfold same_id in Hsame.
  apply String.eqb_eq in Hsame. by destruct (Hids _ _ _ E Hc).
Qed.

(** X19. After any history, the gateway's [GET /certificates] and the
    dispatcher's [list] give the same product ids, and the [total] they
    report is the number of products in the store; neither changes the
    state. *)
Theorem list_views_agree (ops : list Op) (w : World) (pid : Ident) (f : File)
    (cid : Ident) (body : option UploadBody) :
  let st := run_all ops initial in
  exists ids,
    NoDup ids /\
    handler w "GET" "/certificates" body st =
      (Returned (json_response 200
                   (JObj [("productIds", JArr (JStr <$> ids));
                          ("total", JNum (Z.of_nat (size (mockStorage st))))])),
       st) /\
    handleRequest w "list" pid f cid st =
      (Returned (Some (JObj [("operationType", JStr "listResponse");
                             ("productIds", JArr (JStr <$> ids));
                             ("total", JNum (Z.of_nat (size (mockStorage st))))])),
       st).
Proof.
  intros st.
  destruct (list_once ops) as (ids & Hlist & Hnd & Hlen).
  fold st in Hlist, Hlen.
  exists ids. split; [exact Hnd|]. split.
  - unfold handler, try_catch. cbn [String.eqb Ascii.eqb Bool.eqb andb].
    unfold bind. rewrite Hlist. unfold ret, length_json. by rewrite Hlen.
  - unfold handleRequest. cbn [String.eqb Ascii.eqb Bool.eqb andb].
    unfold bind. rewrite Hlist. unfold ret, length_json. by rewrite Hlen.
Qed.
